(** * Analytics core of the learning platform (src/app.py)

    A shallow embedding of the metric computations performed by the
    [dashboard] and [instructor_dashboard] views: per-area averages, the
    date-bucketed chart series, the activity streak, the weekly goal, the
    strongest/weakest insight, the recommendation chain and the instructor
    sparkline.

    Conventions of the embedding:
    - a Python number (int or float) is an exact rational [Q] and the
      arithmetic of the source is carried out exactly, rounding errors of
      the binary64 operations left out; the exact average and the
      computed one can then differ by one tenth where the exact quotient
      is a tie at one decimal and the float quotient is not (70.35). The
      module [Binary64] embeds the averages over binary64 floats, and the
      rule by which [round] chooses the tenth is stated there;
    - a [datetime.date] is its proleptic ordinal ([date.toordinal()]) in
      [Z], so that subtracting [timedelta(days=n)] is subtracting [n];
    - a nullable column is an [option];
    - a Python exception is a [Raise] in the [result] type;
    - a [dict] is a [gmap], a [set] is a [gset]; a [dict] whose iteration
      order matters is an association list. *)

From Stdlib Require Import ZArith QArith Qround Qabs List Lia Lqa.
From Stdlib Require PrimFloat FloatOps SpecFloat Uint63.
From stdpp Require Import base gmap sets list strings sorting.

Local Open Scope Z_scope.

(** ** Python values and primitives *)

Module Py.

Inductive exn : Type :=
  | TypeError
  | ZeroDivisionError
  | AttributeError.

(** The outcome of evaluating an expression: a value or a raised exception. *)
Inductive result (A : Type) : Type :=
  | Ok (a : A)
  | Raise (e : exn).
Arguments Ok {A} a.
Arguments Raise {A} e.

Definition bind {A B : Type} (c : result A) (k : A -> result B) : result B :=
  match c with
  | Ok a => k a
  | Raise e => Raise e
  end.

Definition returns {A : Type} (c : result A) : Prop :=
  match c with Ok _ => True | Raise _ => False end.

(** [a / b] on numbers (true division): the exact quotient, where the
    float division of the source returns the float nearest to it. *)
Definition truediv (a b : Q) : result Q :=
  if Qeq_bool b 0 then Raise ZeroDivisionError else Ok (a / b)%Q.

(** [x + y] where [y] may be [None]. *)
Definition add (x : Q) (y : option Q) : result Q :=
  match y with
  | Some v => Ok (x + v)%Q
  | None => Raise TypeError
  end.

(** [sum(iterable)]: starts from [0] and adds the items from left to right. *)
Fixpoint sum_from (acc : Q) (l : list (option Q)) : result Q :=
  match l with
  | [] => Ok acc
  | y :: l' => bind (add acc y) (fun acc' => sum_from acc' l')
  end.

Definition sum (l : list (option Q)) : result Q := sum_from 0%Q l.

(** [sum] of a list that holds numbers only. *)
Definition sum_num (l : list Q) : Q := fold_left Qplus l 0%Q.

(** [len(l)] as a number. *)
Definition len {A : Type} (l : list A) : Q := inject_Z (Z.of_nat (length l)).

(** Truth value of an optional number: [None], [0] and [0.0] are false. *)
Definition truthy (x : option Q) : bool :=
  match x with
  | Some v => negb (Qeq_bool v 0)
  | None => false
  end.

Definition is_not_None {A : Type} (x : option A) : bool :=
  match x with Some _ => true | None => false end.

(** Nearest integer, an exact half going to the even neighbour. *)
Definition round_half_even (x : Q) : Z :=
  let f := Qfloor x in
  match (x - inject_Z f ?= 1 # 2)%Q with
  | Lt => f
  | Gt => f + 1
  | Eq => if Z.even f then f else f + 1
  end.

(** [round(x, 1)]: CPython rounds the exact value of [x] to one decimal,
    ties to even. Here [x] is the exact number, not the float that stands
    for it in the source; the two choose the same tenth unless the exact
    number is a tie. The result is the exact tenth. *)
Definition round1 (x : Q) : Q := Qred (round_half_even (x * 10) # 10).

(** [int(x)]: truncation toward zero. *)
Definition int (x : Q) : Z := Z.quot (Qnum x) (Zpos (Qden x)).

Definition ltb (x y : Q) : bool := negb (Qle_bool y x).
Definition gtb (x y : Q) : bool := ltb y x.

End Py.

Notation "'let!' x ':=' c 'in' k" := (Py.bind c (fun x => k))
  (at level 10, x name, c at level 100, k at level 200).

(** ** The records read by the views (models.entities) *)

(** A [datetime]: the calendar day and the time of day. *)
Record datetime : Type := {
  day_of : Z;
  time_of : Z
}.

(** [dt.date()] *)
Definition date (dt : datetime) : Z := day_of dt.

Record Grade : Type := {
  score : option Q;
  pronunciation_score : option Q;
  fluency_score : option Q
}.

Record Submission : Type := {
  student_id : Z;
  submission_type : string;
  created_at : datetime;
  grade : option Grade
}.

(** [Quiz.date_taken] holds a [datetime] or a plain [date]. *)
Inductive taken : Type :=
  | TakenAt (dt : datetime)
  | TakenOn (d : Z).

Record Quiz : Type := {
  user_id : Z;
  quiz_score : option Q;
  date_taken : option taken
}.

(** [s.grade] used as a condition. *)
Definition graded (s : Submission) : bool := Py.is_not_None (grade s).

(** [s.grade.score]; reading an attribute of [None] raises. *)
Definition grade_score (s : Submission) : Py.result (option Q) :=
  match grade s with
  | Some g => Py.Ok (score g)
  | None => Py.Raise Py.AttributeError
  end.

(** ** The learner dashboard: area averages *)

Module Dashboard.

Import Py.

(** [[s for s in submissions if s.submission_type == t and s.grade]] *)
Definition graded_of_type (t : string) (submissions : list Submission)
  : list Submission :=
  List.filter (fun s => String.eqb (submission_type s) t && graded s)
    submissions.

Definition speaking_subs := graded_of_type "SPEAKING".
Definition writing_subs := graded_of_type "WRITING".
Definition handwritten_subs := graded_of_type "HANDWRITTEN".

(** Body of the loop that collects the speaking scores: a graded
    submission contributes the mean of its two sub-scores when both are
    truthy. *)
Definition speaking_scores_step (scores : list Q) (sub : Submission)
  : result (list Q) :=
  match grade sub with
  | None => Raise AttributeError
  | Some g =>
      match pronunciation_score g, fluency_score g with
      | Some p, Some f =>
          if truthy (Some p) && truthy (Some f)
          then Ok (scores ++ [(p + f) / 2])%Q
          else Ok scores
      | _, _ => Ok scores
      end
  end.

Fixpoint for_each {S A : Type} (body : S -> A -> result S) (l : list A)
  (s : S) : result S :=
  match l with
  | [] => Ok s
  | x :: l' => let! s' := body s x in for_each body l' s'
  end.

(** [round(sum(l) / len(l), 1) if l else 0.0] on a list of numbers. *)
Definition rounded_mean (l : list Q) : result Q :=
  match l with
  | [] => Ok 0%Q
  | _ :: _ => let! m := truediv (sum_num l) (len l) in Ok (round1 m)
  end.

Definition speaking_score (speaking_subs : list Submission) : result Q :=
  match speaking_subs with
  | [] => Ok 0%Q
  | _ :: _ =>
      let! scores := for_each speaking_scores_step speaking_subs [] in
      rounded_mean scores
  end.

(** [sum(s.grade.score for s in subs)], the generator consumed item by
    item. *)
Fixpoint sum_scores_from (acc : Q) (subs : list Submission) : result Q :=
  match subs with
  | [] => Ok acc
  | s :: subs' =>
      let! v := grade_score s in
      let! acc' := add acc v in
      sum_scores_from acc' subs'
  end.

(** [round(sum(s.grade.score for s in subs) / len(subs), 1) if subs else 0.0],
    the expression behind the writing, handwritten, overall and class
    averages. *)
Definition average_of_scores (subs : list Submission) : result Q :=
  match subs with
  | [] => Ok 0%Q
  | _ :: _ =>
      let! total := sum_scores_from 0%Q subs in
      let! m := truediv total (len subs) in
      Ok (round1 m)
  end.

Definition writing_score (writing_subs : list Submission) : result Q :=
  average_of_scores writing_subs.

Definition handwritten_score (handwritten_subs : list Submission) : result Q :=
  average_of_scores handwritten_subs.

(** [[q.score for q in all_quizzes if q.score is not None]] *)
Definition quiz_scores_list (all_quizzes : list Quiz) : list Q :=
  omap quiz_score all_quizzes.

Definition quiz_score_of (all_quizzes : list Quiz) : result Q :=
  match all_quizzes with
  | [] => Ok 0%Q
  | _ :: _ => rounded_mean (quiz_scores_list all_quizzes)
  end.

(** Average over all graded submissions, whatever their type. *)
Definition avg_score (submissions : list Submission) : result Q :=
  average_of_scores (List.filter graded submissions).

(** *** The chart series (multi-line chart, one point per date) *)

Section Chart.

(** The rendering of a date as day and month, [date.strftime('%d %b')]. *)
Variable strftime_d_b : Z -> string.

(** A speaking submission is charted when its grade holds both sub-scores
    (tested against [None]); its value is their mean. *)
Definition speaking_event (sub : Submission) : option (Z * Q) :=
  match grade sub with
  | Some g =>
      match pronunciation_score g, fluency_score g with
      | Some p, Some f => Some (date (created_at sub), ((p + f) / 2)%Q)
      | _, _ => None
      end
  | None => None
  end.

(** A writing or handwritten submission is charted when its grade holds a
    score. *)
Definition score_event (sub : Submission) : option (Z * Q) :=
  match grade sub with
  | Some g =>
      match score g with
      | Some v => Some (date (created_at sub), v)
      | None => None
      end
  | None => None
  end.

(** A quiz is charted when it has a date and a score. *)
Definition quiz_event (quiz : Quiz) : option (Z * Q) :=
  match date_taken quiz, quiz_score quiz with
  | Some t, Some v =>
      let date_key := match t with TakenAt dt => date dt | TakenOn d => d end in
      Some (date_key, v)
  | _, _ => None
  end.

(** One of the four loops filling [all_dates]. *)
Definition dates_step {A : Type} (event : A -> option (Z * Q))
  (all_dates : gset Z) (item : A) : gset Z :=
  match event item with
  | Some (date_key, _) => all_dates ∪ {[date_key]}
  | None => all_dates
  end.

Definition collect_dates {A : Type} (event : A -> option (Z * Q))
  (items : list A) (all_dates : gset Z) : gset Z :=
  fold_left (dates_step event) items all_dates.

(** [if date_key not in by_date: by_date[date_key] = []] followed by
    [by_date[date_key].append(v)]. The key is present when the list is
    extended, so that [alter], which leaves a map without the key as it
    is, stands for the subscript. *)
Definition append_at (date_key : Z) (v : Q) (by_date : gmap Z (list Q))
  : gmap Z (list Q) :=
  let by_date' :=
    match by_date !! date_key with
    | Some _ => by_date
    | None => <[date_key := []]> by_date
    end in
  alter (fun l => l ++ [v]) date_key by_date'.

(** One of the four loops filling a date-indexed dictionary. *)
Definition by_date_step {A : Type} (event : A -> option (Z * Q))
  (by_date : gmap Z (list Q)) (item : A) : gmap Z (list Q) :=
  match event item with
  | Some (date_key, v) => append_at date_key v by_date
  | None => by_date
  end.

Definition collect_by_date {A : Type} (event : A -> option (Z * Q))
  (items : list A) : gmap Z (list Q) :=
  fold_left (by_date_step event) items ∅.

Record chart_data : Type := {
  dates : list string;
  speaking_scores : list Q;
  writing_scores : list Q;
  quiz_scores : list Q;
  handwritten_scores : list Q
}.

(** The value appended for one area and one date: the rounded mean of the
    bucket, or [0] when the date is not a key. *)
Definition series_value (by_date : gmap Z (list Q)) (d : Z) : result Q :=
  match by_date !! d with
  | Some l => let! m := truediv (sum_num l) (len l) in Ok (round1 m)
  | None => Ok 0%Q
  end.

Definition chart_step
  (speaking_by_date writing_by_date handwritten_by_date quiz_by_date
     : gmap Z (list Q))
  (chart : chart_data) (d : Z) : result chart_data :=
  let dates' := dates chart ++ [strftime_d_b d] in
  let! sp := series_value speaking_by_date d in
  let! wr := series_value writing_by_date d in
  let! hw := series_value handwritten_by_date d in
  let! qz := series_value quiz_by_date d in
  Ok {| dates := dates';
        speaking_scores := speaking_scores chart ++ [sp];
        writing_scores := writing_scores chart ++ [wr];
        quiz_scores := quiz_scores chart ++ [qz];
        handwritten_scores := handwritten_scores chart ++ [hw] |}.

Definition all_dates (speaking_subs writing_subs handwritten_subs
  : list Submission) (all_quizzes : list Quiz) : gset Z :=
  collect_dates quiz_event all_quizzes
    (collect_dates score_event handwritten_subs
       (collect_dates score_event writing_subs
          (collect_dates speaking_event speaking_subs ∅))).

(** [sorted(all_dates)] *)
Definition sorted_dates (speaking_subs writing_subs handwritten_subs
  : list Submission) (all_quizzes : list Quiz) : list Z :=
  merge_sort Z.le
    (elements (all_dates speaking_subs writing_subs handwritten_subs
                 all_quizzes)).

Definition build_chart (speaking_subs writing_subs handwritten_subs
  : list Submission) (all_quizzes : list Quiz) : result chart_data :=
  let speaking_by_date := collect_by_date speaking_event speaking_subs in
  let writing_by_date := collect_by_date score_event writing_subs in
  let handwritten_by_date := collect_by_date score_event handwritten_subs in
  let quiz_by_date := collect_by_date quiz_event all_quizzes in
  for_each
    (chart_step speaking_by_date writing_by_date handwritten_by_date
       quiz_by_date)
    (sorted_dates speaking_subs writing_subs handwritten_subs all_quizzes)
    {| dates := []; speaking_scores := []; writing_scores := [];
       quiz_scores := []; handwritten_scores := [] |}.

(** The chart as the view computes it from the loaded rows. *)
Definition chart_of (submissions : list Submission) (all_quizzes : list Quiz)
  : result chart_data :=
  build_chart (speaking_subs submissions) (writing_subs submissions)
    (handwritten_subs submissions) all_quizzes.

End Chart.

(** *** Streak *)

(** The set of days with at least one submission. *)
Definition submission_dates (submissions : list Submission) : gset Z :=
  fold_left (fun dates sub => dates ∪ {[date (created_at sub)]})
    submissions ∅.

(** The [while] loop, bounded by [fuel] iterations of its test; [None]
    when the bound is hit. *)
Fixpoint streak_loop (fuel : nat) (submission_dates : gset Z)
  (current_streak check_date : Z) : option Z :=
  match fuel with
  | O => None
  | S fuel' =>
      if decide (check_date ∈ submission_dates)
      then streak_loop fuel' submission_dates (current_streak + 1)
             (check_date - 1)
      else Some current_streak
  end.

Definition current_streak (submissions : list Submission) (today : Z)
  : option Z :=
  match submissions with
  | [] => Some 0
  | _ :: _ =>
      let dates := submission_dates submissions in
      streak_loop (S (size dates)) dates 0 today
  end.

(** *** Weekly goal *)

(** [date.weekday()]: Monday is 0. *)
Definition weekday (d : Z) : Z := (d + 6) mod 7.

Definition weekly_goal_target : Z := 5.

Definition week_start (today : Z) : Z := today - weekday today.

Definition weekly_submissions (submissions : list Submission) (today : Z)
  : list Submission :=
  List.filter (fun s => week_start today <=? date (created_at s)) submissions.

(** [min(100, int((current / target) * 100)) if target > 0 else 0] *)
Definition goal_percentage (current target : Z) : result Z :=
  if 0 <? target
  then let! r := truediv (inject_Z current) (inject_Z target) in
       Ok (Z.min 100 (int (r * 100)))
  else Ok 0.

Definition goal_remaining (current target : Z) : Z :=
  Z.max 0 (target - current).

Record weekly_goal : Type := {
  weekly_goal_current : Z;
  weekly_goal_percentage : Z;
  weekly_goal_remaining : Z
}.

Definition weekly_goal_of (submissions : list Submission) (today : Z)
  : result weekly_goal :=
  let current := Z.of_nat (length (weekly_submissions submissions today)) in
  let! percentage := goal_percentage current weekly_goal_target in
  Ok {| weekly_goal_current := current;
        weekly_goal_percentage := percentage;
        weekly_goal_remaining := goal_remaining current weekly_goal_target |}.

(** *** Insights: strongest and weakest area *)

(** [max(d, key=d.get)] keeps the first item unless a later one is
    strictly greater; [min] keeps it unless a later one is strictly
    smaller. *)
Fixpoint max_from (best : string * Q) (l : list (string * Q)) : string * Q :=
  match l with
  | [] => best
  | kv :: l' => max_from (if gtb (snd kv) (snd best) then kv else best) l'
  end.

Fixpoint min_from (best : string * Q) (l : list (string * Q)) : string * Q :=
  match l with
  | [] => best
  | kv :: l' => min_from (if ltb (snd kv) (snd best) then kv else best) l'
  end.

Definition area_scores (speaking_score writing_score quiz_score
  handwritten_score : Q) : list (string * Q) :=
  [("Speaking", speaking_score); ("Writing", writing_score);
   ("Quiz", quiz_score); ("Handwritten", handwritten_score)]%string.

(** [{k: v for k, v in area_scores.items() if v > 0}] *)
Definition non_zero_scores (area_scores : list (string * Q))
  : list (string * Q) :=
  List.filter (fun kv => gtb (snd kv) 0) area_scores.

Record insight : Type := {
  strongest_area : string;
  strongest_score : Q;
  weakest_area : string;
  weakest_score : Q
}.

Definition insights_of (area_scores : list (string * Q)) : insight :=
  match non_zero_scores area_scores with
  | first :: rest =>
      let strongest := max_from first rest in
      let weakest := min_from first rest in
      {| strongest_area := fst strongest; strongest_score := snd strongest;
         weakest_area := fst weakest; weakest_score := snd weakest |}
  | [] =>
      {| strongest_area := "Speaking"; strongest_score := 0;
         weakest_area := "Handwritten"; weakest_score := 0 |}
  end.

Definition insights (speaking_score writing_score quiz_score
  handwritten_score : Q) : insight :=
  insights_of
    (area_scores speaking_score writing_score quiz_score handwritten_score).

(** *** Recommended next step *)

Definition is_empty {A : Type} (l : list A) : bool :=
  match l with [] => true | _ :: _ => false end.

Definition recommended (speaking_subs writing_subs : list Submission)
  (speaking_score writing_score : Q) (completed_quizzes : Z)
  : string * string :=
  if is_empty speaking_subs then ("Improve Your Speaking", "/speaking")
  else if is_empty writing_subs then ("Improve Your Writing", "/submit/writing")
  else if ltb speaking_score 70 then ("Improve Your Speaking", "/speaking")
  else if ltb writing_score 70 then ("Improve Your Writing", "/submit/writing")
  else if completed_quizzes =? 0 then ("Take a Quiz", "/quizzes")
  else ("Start Your First Activity", "/assignments").

(** The recommendation as the view computes it from the loaded rows. *)
Definition recommended_of (submissions : list Submission)
  (all_quizzes : list Quiz) : result (string * string) :=
  let! speaking := speaking_score (speaking_subs submissions) in
  let! writing := writing_score (writing_subs submissions) in
  Ok (recommended (speaking_subs submissions) (writing_subs submissions)
        speaking writing (Z.of_nat (length all_quizzes))).

End Dashboard.

(** ** The instructor dashboard *)

Module Instructor.

Import Py.

(** [today - timedelta(days=i) for i in range(6, -1, -1)] *)
Definition last_7_days (today : Z) : list Z :=
  map (fun i => today - i) [6; 5; 4; 3; 2; 1; 0].

(** The four [defaultdict]s filled by the loop over all submissions. *)
Record buckets : Type := {
  submissions_by_date : gmap Z Z;
  pending_by_date : gmap Z Z;
  avg_score_by_date : gmap Z (list (option Q));
  active_students_by_date : gmap Z (gset Z)
}.

Definition empty_buckets : buckets :=
  {| submissions_by_date := ∅; pending_by_date := ∅;
     avg_score_by_date := ∅; active_students_by_date := ∅ |}.

(** [d[k] += 1] on a [defaultdict(int)]. *)
Definition incr (k : Z) (d : gmap Z Z) : gmap Z Z :=
  <[k := default 0 (d !! k) + 1]> d.

Definition bucket_step (today : Z) (b : buckets) (sub : Submission)
  : buckets :=
  let sub_date := date (created_at sub) in
  if decide (sub_date ∈ last_7_days today) then
    {| submissions_by_date := incr sub_date (submissions_by_date b);
       pending_by_date :=
         if negb (graded sub) then incr sub_date (pending_by_date b)
         else pending_by_date b;
       avg_score_by_date :=
         match grade sub with
         | Some g =>
             <[sub_date :=
                 default [] (avg_score_by_date b !! sub_date) ++ [score g]]>
               (avg_score_by_date b)
         | None => avg_score_by_date b
         end;
       active_students_by_date :=
         <[sub_date :=
             default ∅ (active_students_by_date b !! sub_date)
               ∪ {[student_id sub]}]>
           (active_students_by_date b) |}
  else b.

Definition fill_buckets (today : Z) (all_subs : list Submission) : buckets :=
  fold_left (bucket_step today) all_subs empty_buckets.

(** [round(sum(l) / len(l), 1) if l else 0.0] for
    [l = avg_score_by_date.get(date, [])]. *)
Definition day_average (avg_score_by_date : gmap Z (list (option Q)))
  (d : Z) : result Q :=
  match default [] (avg_score_by_date !! d) with
  | [] => Ok 0%Q
  | (_ :: _) as l =>
      let! total := sum l in
      let! m := truediv total (len l) in
      Ok (round1 m)
  end.

(** A list comprehension whose element expression may raise. *)
Fixpoint comprehension {A B : Type} (f : A -> result B) (l : list A)
  : result (list B) :=
  match l with
  | [] => Ok []
  | x :: l' =>
      let! y := f x in
      let! ys := comprehension f l' in
      Ok (y :: ys)
  end.

Record sparkline_data : Type := {
  submissions : list Z;
  pending : list Z;
  class_avg : list Q;
  active_students : list Z
}.

Definition sparkline (today : Z) (all_subs : list Submission)
  : result sparkline_data :=
  let b := fill_buckets today all_subs in
  let days := last_7_days today in
  let! avgs := comprehension (day_average (avg_score_by_date b)) days in
  Ok {| submissions :=
          map (fun d => default 0 (submissions_by_date b !! d)) days;
        pending := map (fun d => default 0 (pending_by_date b !! d)) days;
        class_avg := avgs;
        active_students :=
          map (fun d =>
                 Z.of_nat (size (default ∅ (active_students_by_date b !! d))))
            days |}.

(** The headline figures of the class. *)
Definition graded_subs (all_subs : list Submission) : list Submission :=
  List.filter graded all_subs.

Definition class_average (all_subs : list Submission) : result Q :=
  Dashboard.average_of_scores (graded_subs all_subs).

Definition active_count (all_subs : list Submission) : Z :=
  Z.of_nat (size (list_to_set (map student_id all_subs) : gset Z)).

Definition pending_count (all_subs : list Submission) : Z :=
  Z.of_nat (length all_subs) - Z.of_nat (length (graded_subs all_subs)).

End Instructor.

(** ** Reference notions used to state the properties *)

Module Spec.

(** The values of the events that fall on day [d], in arrival order. *)
Definition values_on (d : Z) (events : list (Z * Q)) : list Q :=
  map snd (List.filter (fun e => fst e =? d) events).

(** Exact mean of a non-empty list of numbers. *)
Definition mean (l : list Q) : Q := (Py.sum_num l / Py.len l)%Q.

(** The average of an area: the exact mean rounded once, at the end, and
    [0] over no value at all. *)
Definition average (l : list Q) : Q :=
  match l with
  | [] => 0%Q
  | _ :: _ => Py.round1 (mean l)
  end.

(** The slot of an area for a day: the rounded mean of that day's values,
    and [0] when the area has no event that day. *)
Definition slot (events : list (Z * Q)) (d : Z) : Q :=
  average (values_on d events).

(** The per-event values behind the speaking average: the unrounded mean
    of the two sub-scores of every graded submission whose sub-scores are
    both truthy. *)
Fixpoint speaking_values (subs : list Submission) : list Q :=
  match subs with
  | [] => []
  | s :: subs' =>
      match grade s with
      | Some {| pronunciation_score := Some p; fluency_score := Some f |} =>
          if Py.truthy (Some p) && Py.truthy (Some f)
          then ((p + f) / 2)%Q :: speaking_values subs'
          else speaking_values subs'
      | _ => speaking_values subs'
      end
  end.

(** The scores of a list of graded submissions, when every grade holds
    one. *)
Fixpoint scores_of (subs : list Submission) : option (list Q) :=
  match subs with
  | [] => Some []
  | s :: subs' =>
      match grade s, scores_of subs' with
      | Some {| score := Some v |}, Some vs => Some (v :: vs)
      | _, _ => None
      end
  end.

(** Nearest integer, an exact half going away from zero. *)
Definition round_half_away (x : Q) : Z :=
  if Qle_bool 0 x then Qfloor (x + (1 # 2)) else Qceiling (x - (1 # 2)).

(** Rounding to one decimal, halves away from zero. *)
Definition round1_half_away (x : Q) : Q :=
  Qred (round_half_away (x * 10) # 10).

Definition average_half_away (l : list Q) : Q :=
  match l with
  | [] => 0%Q
  | _ :: _ => round1_half_away (mean l)
  end.

(** The days [today], [today - 1], ..., [today - (n - 1)] all have an
    activity record. *)
Definition consecutive (submissions : list Submission) (today n : Z) : Prop :=
  forall i, 0 <= i < n ->
    exists s, s ∈ submissions /\ date (created_at s) = today - i.

(** A priority chain: the outcome of the first rule whose condition holds,
    the fallback when none does. *)
Fixpoint first_match {A : Type} (rules : list (bool * A)) (fallback : A) : A :=
  match rules with
  | [] => fallback
  | (c, a) :: rules' => if c then a else first_match rules' fallback
  end.

(** Some record of the given kind exists, graded or not. *)
Definition has_record (t : string) (submissions : list Submission) : bool :=
  existsb (fun s => String.eqb (submission_type s) t) submissions.

(** Some graded record of the given kind exists. *)
Definition has_graded_record (t : string) (submissions : list Submission)
  : bool :=
  existsb (fun s => String.eqb (submission_type s) t && graded s) submissions.

(** The recommendation chain over a chosen reading of "a record of the
    area exists". *)
Definition chain (exists_record : string -> list Submission -> bool)
  (submissions : list Submission) (speaking writing : Q) (quizzes : Z)
  : string :=
  first_match
    [(negb (exists_record "SPEAKING" submissions), "Improve Your Speaking");
     (negb (exists_record "WRITING" submissions), "Improve Your Writing");
     (Py.ltb speaking 70, "Improve Your Speaking");
     (Py.ltb writing 70, "Improve Your Writing");
     ((quizzes =? 0)%Z, "Take a Quiz")]%string
    "Start Your First Activity"%string.

(** The submissions dated on day [d], in arrival order; those still
    pending; those graded; the distinct students who submitted. *)
Definition on_day (d : Z) (subs : list Submission) : list Submission :=
  List.filter (fun s => date (created_at s) =? d) subs.

Definition pending_on (d : Z) (subs : list Submission) : list Submission :=
  List.filter (fun s => negb (graded s)) (on_day d subs).

Definition graded_on (d : Z) (subs : list Submission) : list Submission :=
  List.filter graded (on_day d subs).

Definition students_on (d : Z) (subs : list Submission) : list Z :=
  remove_dups (map student_id (on_day d subs)).

(** [s.grade.score] of a graded submission, as stored. *)
Definition stored_score (s : Submission) : option Q :=
  match grade s with
  | Some g => score g
  | None => None
  end.

(** Every grade of the list holds a score. *)
Definition every_grade_scored (subs : list Submission) : bool :=
  forallb
    (fun s =>
       match grade s with
       | Some g => Py.is_not_None (score g)
       | None => true
       end)
    subs.

End Spec.

(** ** Sample rows *)

Module Examples.

Definition at_day (d : Z) : datetime := {| day_of := d; time_of := 0 |}.

(** A submission that has no grade yet. *)
Definition ungraded (t : string) (d : Z) : Submission :=
  {| student_id := 1; submission_type := t; created_at := at_day d;
     grade := None |}.

(** A submission graded with a score. *)
Definition scored (t : string) (d : Z) (v : Q) : Submission :=
  {| student_id := 1; submission_type := t; created_at := at_day d;
     grade := Some {| score := Some v; pronunciation_score := None;
                      fluency_score := None |} |}.

(** A speaking submission graded with its two sub-scores. *)
Definition spoken (d : Z) (p f : Q) : Submission :=
  {| student_id := 1; submission_type := "SPEAKING"; created_at := at_day d;
     grade := Some {| score := None; pronunciation_score := Some p;
                      fluency_score := Some f |} |}.

(** A submission whose grade row holds no score. *)
Definition unscored (t : string) (d : Z) : Submission :=
  {| student_id := 1; submission_type := t; created_at := at_day d;
     grade := Some {| score := None; pronunciation_score := None;
                      fluency_score := None |} |}.

End Examples.

(** ** The other figures of the learner views *)

Module Views.

Import Py.

(** [submissions[-10:] if len(submissions) > 10 else submissions] *)
Definition recent_submissions (submissions : list Submission)
  : list Submission :=
  if (10 <? length submissions)%nat
  then drop (length submissions - 10) submissions
  else submissions.

(** [len(recent_submissions) > 0] *)
Definition has_chart_data (submissions : list Submission) : bool :=
  (0 <? length (recent_submissions submissions))%nat.

Definition total_submissions (submissions : list Submission) : Z :=
  Z.of_nat (length submissions).

(** Order of two [datetime]s: by day, then by time of day. *)
Definition datetime_ltb (a b : datetime) : bool :=
  (day_of a <? day_of b)
  || ((day_of a =? day_of b) && (time_of a <? time_of b)).


(** *** The assignments page *)






(** *** The speaking page *)

(** [max(l, key=lambda x: x.created_at)] on a non-empty list: the first
    item is kept unless a later one is strictly later. *)
Fixpoint latest_from (best : Submission) (l : list Submission) : Submission :=
  match l with
  | [] => best
  | s :: l' =>
      latest_from
        (if datetime_ltb (created_at best) (created_at s) then s else best) l'
  end.

Record speaking_page : Type := {
  page_avg_score : Q;
  last_practice : option string;
  total_recordings : Z
}.

Section Speaking.

(** The rendering of a date as month and day, [strftime('%b %d')]. *)
Variable strftime_b_d : datetime -> string.

(** The page computed from the rows of the learner whose type is
    SPEAKING, as the query returns them. *)
Definition speaking (submissions : list Submission) : result speaking_page :=
  let speaking_subs := List.filter graded submissions in
  let! avg_score := Dashboard.speaking_score speaking_subs in
  let last_practice :=
    match speaking_subs with
    | [] => None
    | first :: rest => Some (strftime_b_d (created_at (latest_from first rest)))
    end in
  Ok {| page_avg_score := avg_score;
        last_practice := last_practice;
        total_recordings := Z.of_nat (length speaking_subs) |}.

End Speaking.

(** *** The instructor dashboard view (lines 604-647) *)

(** The values handed to the template. *)
Record instructor_page : Type := {
  page_class_avg : Q;
  page_active_count : Z;
  page_pending_count : Z;
  page_sparkline_data : Instructor.sparkline_data
}.

(** The view in the order of its statements: the class average first, then
    the two counts, then the sparkline. *)
Definition instructor_dashboard (today : Z) (all_subs : list Submission)
  : result instructor_page :=
  let! class_avg := Instructor.class_average all_subs in
  let active_count := Instructor.active_count all_subs in
  let pending_count := Instructor.pending_count all_subs in
  let! sparkline_data := Instructor.sparkline today all_subs in
  Ok {| page_class_avg := class_avg;
        page_active_count := active_count;
        page_pending_count := pending_count;
        page_sparkline_data := sparkline_data |}.

End Views.

(** ** The quiz service (services/quiz_service.py) *)

Module QuizService.

Import Py.

Record Question : Type := {
  correct_answer : string
}.

Section Service.

(** [str.upper()] *)
Variable upper : string -> string.

(** The question table, read by [Question.query.get]. *)
Variable questions : gmap Z Question.

Definition check_answer (question_id : Z) (user_answer : string) : bool :=
  match questions !! question_id with
  | None => false
  | Some question =>
      String.eqb (upper user_answer) (upper (correct_answer question))
  end.

(** Body of the loop over [question_ids]; the answers are keyed by the
    question id. *)
Definition score_step (user_answers : gmap Z string) (correct : Z) (q_id : Z)
  : Z :=
  match user_answers !! q_id with
  | Some answer =>
      match questions !! q_id with
      | Some question =>
          if String.eqb (upper answer) (upper (correct_answer question))
          then correct + 1
          else correct
      | None => correct
      end
  | None => correct
  end.

(** [round((correct / total) * 100, 1) if total > 0 else 0], in exact
    arithmetic: the float product of the source can fall on the other side
    of a tie of the exact one (23 of 80 is 28.75 exactly, and 28.7 in the
    source). *)
Definition percentage_score (correct total : Z) : result Q :=
  if 0 <? total
  then let! r := truediv (inject_Z correct) (inject_Z total) in
       Ok (round1 (r * 100))
  else Ok 0%Q.

Definition calculate_final_score (question_ids : list Z)
  (user_answers : gmap Z string) : result (Z * Z * Q) :=
  let total := Z.of_nat (length question_ids) in
  let correct := fold_left (score_step user_answers) question_ids 0 in
  let! score := percentage_score correct total in
  Ok (correct, total, score).

(** The later revision of the loop: the answers are keyed by
    [str(q_id)]. *)
Variable str : Z -> string.

Definition score_step_str (user_answers : gmap string string) (correct : Z)
  (q_id : Z) : Z :=
  let key := str q_id in
  match user_answers !! key with
  | Some answer =>
      match questions !! q_id with
      | Some question =>
          if String.eqb (upper answer) (upper (correct_answer question))
          then correct + 1
          else correct
      | None => correct
      end
  | None => correct
  end.

Definition calculate_final_score_str (question_ids : list Z)
  (user_answers : gmap string string) : result (Z * Z * Q) :=
  let total := Z.of_nat (length question_ids) in
  let correct := fold_left (score_step_str user_answers) question_ids 0 in
  let! score := percentage_score correct total in
  Ok (correct, total, score).

End Service.

End QuizService.

(** ** Further reference notions *)

Module Props.

(** A score within the range of the data model. *)
Definition in_range (v : Q) : bool := Qle_bool 0 v && Qle_bool v 100.

Definition opt_in_range (o : option Q) : bool :=
  match o with
  | Some v => in_range v
  | None => true
  end.

(** Every score and sub-score stored with the submissions is in range. *)
Definition scores_in_range (subs : list Submission) : bool :=
  forallb
    (fun s =>
       match grade s with
       | Some g =>
           opt_in_range (score g) && opt_in_range (pronunciation_score g)
           && opt_in_range (fluency_score g)
       | None => true
       end)
    subs.

Definition quiz_scores_in_range (quizzes : list Quiz) : bool :=
  forallb (fun q => opt_in_range (quiz_score q)) quizzes.

(** The day of a submission lies in the seven-day window ending [today]. *)
Definition in_window (today : Z) (s : Submission) : bool :=
  (today - 6 <=? date (created_at s)) && (date (created_at s) <=? today).

(** The sum of a list of integers. *)
Definition total (l : list Z) : Z := fold_right Z.add 0 l.

End Props.

(** ** The graded events of a record set, area by area *)

Module Charted.

(** A record is of the given kind. *)
Definition of_kind (k : string) (r : Submission) : bool :=
  String.eqb (submission_type r) k.

(** The day a quiz was taken. *)
Definition day_taken (t : taken) : Z :=
  match t with
  | TakenAt dt => day_of dt
  | TakenOn d => d
  end.

(** The events of the speaking area: one for every graded record of kind
    SPEAKING whose two sub-scores are both present, on the day of the
    record, valued with the mean of the two sub-scores. *)
Fixpoint speaking (records : list Submission) : list (Z * Q) :=
  match records with
  | [] => []
  | r :: records' =>
      if of_kind "SPEAKING" r then
        match grade r with
        | Some {| pronunciation_score := Some p; fluency_score := Some f |} =>
            (day_of (created_at r), ((p + f) / 2)%Q) :: speaking records'
        | _ => speaking records'
        end
      else speaking records'
  end.

(** The events of the writing or handwritten area: one for every graded
    record of that kind whose score is present, on the day of the record,
    valued with the score. *)
Fixpoint scored (k : string) (records : list Submission) : list (Z * Q) :=
  match records with
  | [] => []
  | r :: records' =>
      if of_kind k r then
        match grade r with
        | Some {| score := Some v |} =>
            (day_of (created_at r), v) :: scored k records'
        | _ => scored k records'
        end
      else scored k records'
  end.

Definition writing : list Submission -> list (Z * Q) := scored "WRITING".


(** The events of the quiz area: one for every quiz attempt that has a
    date and a score. *)
Fixpoint quiz (attempts : list Quiz) : list (Z * Q) :=
  match attempts with
  | [] => []
  | q :: attempts' =>
      match date_taken q, quiz_score q with
      | Some t, Some v => (day_taken t, v) :: quiz attempts'
      | _, _ => quiz attempts'
      end
  end.

End Charted.

(** ** The averages in binary64 arithmetic

    The tenth that [round] returns depends on the binary value of the
    quotient it is given: [1407 / 20] is the float just below 70.35, and
    [round] takes it to 70.3, where the exact quotient 70.35 is a tie. The
    averages of the learner dashboard are therefore embedded a second time
    over the binary64 floats of CPython, every operation being correctly
    rounded, the tie rule of [round] being stated over this embedding. *)

Module Binary64.

Import Py.

Definition float : Set := PrimFloat.float.

(** The exact value of a finite float. *)
Definition value (x : float) : option Q :=
  match FloatOps.Prim2SF x with
  | SpecFloat.S754_zero _ => Some 0%Q
  | SpecFloat.S754_finite s m e =>
      let n := if s then Z.neg m else Z.pos m in
      Some (if (0 <=? e)%Z then inject_Z (n * 2 ^ e)
            else (n # (2 ^ Z.to_pos (- e))))
  | _ => None
  end.

(** [float(n)] for an [int] below [2 ^ 63] in magnitude. *)
Definition of_Z (n : Z) : float :=
  if (n <? 0)%Z then PrimFloat.opp (PrimFloat.of_uint63 (Uint63.of_Z (- n)))
  else PrimFloat.of_uint63 (Uint63.of_Z n).

(** A number read from a [Float] column: the float nearest to it. *)
Definition stored (q : Q) : float :=
  PrimFloat.div (of_Z (Qnum q)) (of_Z (Zpos (Qden q))).

(** Truth value of a float: [0.0] and [-0.0] are false. *)
Definition truthy (x : float) : bool := negb (PrimFloat.eqb x PrimFloat.zero).

(** [a / n] for a float [a] and an [int] [n]. *)
Definition truediv_int (a : float) (n : Z) : result float :=
  if (n =? 0)%Z then Raise ZeroDivisionError
  else Ok (PrimFloat.div a (of_Z n)).

(** [sum(l)] on floats: from [0], adding from left to right, every
    addition rounded (CPython from 3.12 on also carries a compensation
    term; the two sums are the same whenever the additions are exact, as
    they are for whole-number scores). *)
Definition sum (l : list float) : float :=
  fold_left PrimFloat.add l PrimFloat.zero.

(** The float returned by [round(x, 1)] once the integer number [n] of
    tenths is chosen: [n / 10] correctly rounded; a zero keeps the sign of
    [x], and a float too large to have a fractional part is returned as it
    is. *)
Definition tenths (x : float) (n : Z) : float :=
  if (n =? 0)%Z then PrimFloat.mul x PrimFloat.zero
  else if (Z.abs n <? 2 ^ 53)%Z then PrimFloat.div (of_Z n) (of_Z 10)
  else x.

(** [round(x, 1)]: CPython takes the decimal nearest to the exact value of
    the float [x], a tie going to the even digit. *)
Definition round1 (x : float) : float :=
  match value x with
  | Some q => tenths x (round_half_even (q * 10))
  | None => x
  end.

(** Body of the loop that collects the speaking scores (lines 132-134). *)
Definition speaking_scores_step (scores : list float) (sub : Submission)
  : result (list float) :=
  match grade sub with
  | None => Raise AttributeError
  | Some g =>
      match pronunciation_score g, fluency_score g with
      | Some p, Some f =>
          if truthy (stored p) && truthy (stored f)
          then Ok (scores
                   ++ [PrimFloat.div (PrimFloat.add (stored p) (stored f))
                         (of_Z 2)])
          else Ok scores
      | _, _ => Ok scores
      end
  end.

(** [round(sum(l) / len(l), 1) if l else 0.0] on a list of floats. *)
Definition rounded_mean (l : list float) : result float :=
  match l with
  | [] => Ok PrimFloat.zero
  | _ :: _ =>
      let! m := truediv_int (sum l) (Z.of_nat (length l)) in Ok (round1 m)
  end.

Definition speaking_score (speaking_subs : list Submission) : result float :=
  match speaking_subs with
  | [] => Ok PrimFloat.zero
  | _ :: _ =>
      let! scores :=
        Dashboard.for_each speaking_scores_step speaking_subs [] in
      rounded_mean scores
  end.

(** [sum(s.grade.score for s in subs)], the generator consumed item by
    item. *)
Fixpoint sum_scores_from (acc : float) (subs : list Submission)
  : result float :=
  match subs with
  | [] => Ok acc
  | s :: subs' =>
      let! v := grade_score s in
      match v with
      | Some q => sum_scores_from (PrimFloat.add acc (stored q)) subs'
      | None => Raise TypeError
      end
  end.

(** [round(sum(s.grade.score for s in subs) / len(subs), 1) if subs else 0.0] *)
Definition average_of_scores (subs : list Submission) : result float :=
  match subs with
  | [] => Ok PrimFloat.zero
  | _ :: _ =>
      let! total := sum_scores_from PrimFloat.zero subs in
      let! m := truediv_int total (Z.of_nat (length subs)) in
      Ok (round1 m)
  end.

Definition writing_score (writing_subs : list Submission) : result float :=
  average_of_scores writing_subs.

Definition handwritten_score (handwritten_subs : list Submission)
  : result float :=
  average_of_scores handwritten_subs.

Definition quiz_score_of (all_quizzes : list Quiz) : result float :=
  match all_quizzes with
  | [] => Ok PrimFloat.zero
  | _ :: _ => rounded_mean (map stored (omap quiz_score all_quizzes))
  end.

(** The charted value of a speaking submission (lines 226-228). *)
Definition speaking_event (sub : Submission) : option (Z * float) :=
  match grade sub with
  | Some g =>
      match pronunciation_score g, fluency_score g with
      | Some p, Some f =>
          Some (date (created_at sub),
                PrimFloat.div (PrimFloat.add (stored p) (stored f)) (of_Z 2))
      | _, _ => None
      end
  | None => None
  end.

(** Lines 229-231. *)
Definition append_at (date_key : Z) (v : float) (by_date : gmap Z (list float))
  : gmap Z (list float) :=
  let by_date' :=
    match by_date !! date_key with
    | Some _ => by_date
    | None => <[date_key := []]> by_date
    end in
  alter (fun l => l ++ [v]) date_key by_date'.

Definition by_date_step (by_date : gmap Z (list float)) (sub : Submission)
  : gmap Z (list float) :=
  match speaking_event sub with
  | Some (date_key, v) => append_at date_key v by_date
  | None => by_date
  end.

Definition speaking_by_date (speaking_subs : list Submission)
  : gmap Z (list float) :=
  fold_left by_date_step speaking_subs ∅.

(** The speaking value appended for one date (lines 259-262). *)
Definition series_value (by_date : gmap Z (list float)) (d : Z)
  : result float :=
  match by_date !! d with
  | Some l =>
      let! m := truediv_int (sum l) (Z.of_nat (length l)) in Ok (round1 m)
  | None => Ok PrimFloat.zero
  end.

(** *** Reference notions over the loaded rows *)

(** The float quotient of the sum by the count, rounded once; [0.0] over
    no value. *)
Definition average (l : list float) : float :=
  match l with
  | [] => PrimFloat.zero
  | _ :: _ =>
      round1 (PrimFloat.div (sum l) (of_Z (Z.of_nat (length l))))
  end.

(** The unrounded per-event values of the speaking average: one for each
    graded speaking row whose two sub-scores are non-zero. *)
Fixpoint speaking_values (records : list Submission) : list float :=
  match records with
  | [] => []
  | r :: rest =>
      if Charted.of_kind "SPEAKING" r then
        match grade r with
        | Some {| pronunciation_score := Some p; fluency_score := Some f |} =>
            if truthy (stored p) && truthy (stored f)
            then PrimFloat.div (PrimFloat.add (stored p) (stored f)) (of_Z 2)
                 :: speaking_values rest
            else speaking_values rest
        | _ => speaking_values rest
        end
      else speaking_values rest
  end.

(** The scores of the graded rows of kind [k], when each of them holds
    one. *)
Fixpoint scores (k : string) (records : list Submission)
  : option (list float) :=
  match records with
  | [] => Some []
  | r :: rest =>
      if Charted.of_kind k r then
        match grade r with
        | Some g =>
            match score g, scores k rest with
            | Some v, Some vs => Some (stored v :: vs)
            | _, _ => None
            end
        | None => scores k rest
        end
      else scores k rest
  end.

Fixpoint quiz_values (attempts : list Quiz) : list float :=
  match attempts with
  | [] => []
  | a :: rest =>
      match quiz_score a with
      | Some v => stored v :: quiz_values rest
      | None => quiz_values rest
      end
  end.

(** The charted speaking events: day and unrounded value of each graded
    speaking row that holds both sub-scores. *)
Fixpoint speaking_points (records : list Submission) : list (Z * float) :=
  match records with
  | [] => []
  | r :: rest =>
      if Charted.of_kind "SPEAKING" r then
        match grade r with
        | Some {| pronunciation_score := Some p; fluency_score := Some f |} =>
            (day_of (created_at r),
             PrimFloat.div (PrimFloat.add (stored p) (stored f)) (of_Z 2))
            :: speaking_points rest
        | _ => speaking_points rest
        end
      else speaking_points rest
  end.

Definition values_on (d : Z) (events : list (Z * float)) : list float :=
  map snd (List.filter (fun e => (fst e =? d)%Z) events).

(** Rounding to one decimal with ties away from zero, and the average it
    would give. *)
Definition round1_half_away (x : float) : float :=
  match value x with
  | Some q => tenths x (Spec.round_half_away (q * 10))
  | None => x
  end.

Definition average_half_away (l : list float) : float :=
  match l with
  | [] => PrimFloat.zero
  | _ :: _ =>
      round1_half_away
        (PrimFloat.div (sum l) (of_Z (Z.of_nat (length l))))
  end.

End Binary64.

Import Dashboard.

(** ** Facts about the Python primitives *)

Lemma len_cons_nonzero {A : Type} (x : A) (l : list A) :
  Qeq_bool (Py.len (x :: l)) 0 = false.
Proof.
  unfold Py.len, Qeq_bool, inject_Z. cbn [Qnum Qden length].
  apply Z.eqb_neq. lia.
Qed.

Lemma truediv_len {A : Type} (a : Q) (x : A) (l : list A) :
  Py.truediv a (Py.len (x :: l)) = Py.Ok (a / Py.len (x :: l))%Q.
Proof. unfold Py.truediv. now rewrite len_cons_nonzero. Qed.

Lemma for_each_app {S A : Type} (body : S -> A -> Py.result S)
  (l1 l2 : list A) (s : S) :
  for_each body (l1 ++ l2) s
  = Py.bind (for_each body l1 s) (for_each body l2).
Proof.
  revert s. induction l1 as [|x l1 IH]; intros s; cbn; [reflexivity|].
  destruct (body s x) as [s'|e]; cbn; [apply IH | reflexivity].
Qed.

Lemma rounded_mean_spec (l : list Q) :
  rounded_mean l = Py.Ok (Spec.average l).
Proof.
  destruct l as [|x l]; [reflexivity|].
  unfold rounded_mean. rewrite truediv_len. reflexivity.
Qed.

(** ** The chart series *)

Section ChartFacts.

Context {A : Type} (event : A -> option (Z * Q)).

Lemma append_at_lookup (k : Z) (v : Q) (m : gmap Z (list Q)) (d : Z) :
  append_at k v m !! d
  = if decide (d = k) then Some (default [] (m !! k) ++ [v]) else m !! d.
Proof.
  unfold append_at. case_decide as Hd.
  - subst d. destruct (m !! k) as [l|] eqn:E.
    + rewrite lookup_alter_eq, E. reflexivity.
    + rewrite lookup_alter_eq, lookup_insert_eq. reflexivity.
  - destruct (m !! k) as [l|] eqn:E.
    + rewrite lookup_alter_ne by congruence. reflexivity.
    + rewrite lookup_alter_ne, lookup_insert_ne by congruence. reflexivity.
Qed.

Lemma fold_by_date_lookup (items : list A) (m : gmap Z (list Q)) (d : Z) :
  fold_left (by_date_step event) items m !! d
  = match Spec.values_on d (omap event items) with
    | [] => m !! d
    | (_ :: _) as l => Some (default [] (m !! d) ++ l)
    end.
Proof.
  revert m. induction items as [|x items IH]; intros m; [reflexivity|].
  cbn [fold_left omap list_omap]. rewrite IH. unfold by_date_step.
  destruct (event x) as [[k v]|]; [|reflexivity].
  unfold Spec.values_on. cbn [List.filter fst].
  rewrite append_at_lookup.
  destruct (Z.eqb_spec k d) as [->|Hne].
  - rewrite decide_True by reflexivity. cbn [map snd default].
    destruct (map snd _) as [|y l]; cbn [default].
    + reflexivity.
    + unfold id. now rewrite <- app_assoc.
  - rewrite decide_False by congruence. reflexivity.
Qed.

Lemma collect_by_date_lookup (items : list A) (d : Z) :
  collect_by_date event items !! d
  = match Spec.values_on d (omap event items) with
    | [] => None
    | (_ :: _) as l => Some l
    end.
Proof.
  unfold collect_by_date.
  rewrite fold_by_date_lookup, lookup_empty. reflexivity.
Qed.

Lemma series_value_spec (items : list A) (d : Z) :
  series_value (collect_by_date event items) d
  = Py.Ok (Spec.slot (omap event items) d).
Proof.
  unfold series_value, Spec.slot, Spec.average.
  rewrite collect_by_date_lookup.
  destruct (Spec.values_on d _) as [|x l]; [reflexivity|].
  rewrite truediv_len. reflexivity.
Qed.


End ChartFacts.


Section ChartLoop.

Variable strftime_d_b : Z -> string.
Variables speaking_items writing_items handwritten_items : list Submission.
Variable quiz_items : list Quiz.

Lemma chart_loop_spec (ds : list Z) (c : chart_data) :
  for_each
    (chart_step strftime_d_b
       (collect_by_date speaking_event speaking_items)
       (collect_by_date score_event writing_items)
       (collect_by_date score_event handwritten_items)
       (collect_by_date quiz_event quiz_items))
    ds c
  = Py.Ok
      {| dates := dates c ++ map strftime_d_b ds;
         speaking_scores :=
           speaking_scores c
           ++ map (Spec.slot (omap speaking_event speaking_items)) ds;
         writing_scores :=
           writing_scores c
           ++ map (Spec.slot (omap score_event writing_items)) ds;
         quiz_scores :=
           quiz_scores c ++ map (Spec.slot (omap quiz_event quiz_items)) ds;
         handwritten_scores :=
           handwritten_scores c
           ++ map (Spec.slot (omap score_event handwritten_items)) ds |}.
Proof.
  revert c. induction ds as [|d ds IH]; intros c.
  - cbn. rewrite !app_nil_r. now destruct c.
  - cbn [for_each]. unfold chart_step at 1.
    rewrite !series_value_spec. cbn [Py.bind].
    rewrite IH. cbn [dates speaking_scores writing_scores quiz_scores
                       handwritten_scores map].
    rewrite <- !app_assoc. reflexivity.
Qed.

End ChartLoop.

Lemma lookup_map {A B : Type} (f : A -> B) (l : list A) (i : nat) :
  map f l !! i = f <$> l !! i.
Proof.
  revert i. induction l as [|x l IH]; intros [|i]; cbn; auto.
Qed.

Lemma size_of_days (S : gset Z) (days : list Z) :
  (forall d, d ∈ S <-> d ∈ days) -> size S = length (remove_dups days).
Proof.
  intros HS.
  assert (S = list_to_set (remove_dups days)) as ->.
  { apply set_eq. intros d.
    rewrite elem_of_list_to_set, elem_of_remove_dups. apply HS. }
  apply size_list_to_set, NoDup_remove_dups.
Qed.






(** ** The streak *)

Lemma elem_of_fold_dates (submissions : list Submission) (acc : gset Z)
  (d : Z) :
  d ∈ fold_left (fun dates sub => dates ∪ {[date (created_at sub)]})
        submissions acc
  <-> d ∈ acc \/ exists s, s ∈ submissions /\ date (created_at s) = d.
Proof.
  revert acc. induction submissions as [|x l IH]; intros acc; cbn [fold_left].
  - split; [auto|]. intros [H|(s & Hs & _)]; [exact H|].
    now apply elem_of_nil in Hs.
  - rewrite IH, elem_of_union, elem_of_singleton. split.
    + intros [[H| ->]|(s & Hs & Hd)]; eauto using list_elem_of_here.
      right. exists s. split; [now apply list_elem_of_further | exact Hd].
    + intros [H|(s & Hs & Hd)]; [tauto|].
      apply elem_of_cons in Hs as [->|Hs]; [auto | eauto].
Qed.

Lemma elem_of_submission_dates (submissions : list Submission) (d : Z) :
  d ∈ submission_dates submissions
  <-> exists s, s ∈ submissions /\ date (created_at s) = d.
Proof.
  unfold submission_dates. rewrite elem_of_fold_dates, elem_of_empty. tauto.
Qed.

Lemma streak_loop_spec (fuel : nat) (D : gset Z) (c d : Z) :
  (size (filter (fun x : Z => (x <= d)%Z) D) < fuel)%nat ->
  exists k, 0 <= k
    /\ streak_loop fuel D c d = Some (c + k)
    /\ (forall i, 0 <= i < k -> d - i ∈ D)
    /\ d - k ∉ D.
Proof.
  revert c d. induction fuel as [|fuel IH]; intros c d Hsize; [lia|].
  cbn [streak_loop]. destruct (decide (d ∈ D)) as [Hin|Hout].
  - destruct (IH (c + 1) (d - 1)) as (k & Hk & Hrun & Hall & Hstop).
    { assert (filter (fun x => x <= d - 1) D ⊂ filter (fun x => x <= d) D).
      { split.
        - intros x. rewrite !elem_of_filter. intros [? ?]. split; [lia|done].
        - intros Hsub. specialize (Hsub d).
          rewrite !elem_of_filter in Hsub.
          destruct Hsub as [? _]; [split; [lia|done] | lia]. }
      apply subset_size in H. lia. }
    exists (k + 1). repeat split.
    + lia.
    + rewrite Hrun. f_equal. lia.
    + intros i Hi. destruct (decide (i = 0)) as [->|Hne].
      * now rewrite Z.sub_0_r.
      * replace (d - i) with (d - 1 - (i - 1)) by lia. apply Hall. lia.
    + replace (d - (k + 1)) with (d - 1 - k) by lia. exact Hstop.
  - exists 0. rewrite Z.add_0_r, Z.sub_0_r. repeat split; [lia| |exact Hout].
    intros i Hi. lia.
Qed.

(** C2. For every list of submissions and every reference day the streak
    loop terminates, and the streak it returns is the largest [n >= 0] such
    that each of [today], [today - 1], ..., [today - (n - 1)] has at least
    one activity record. In particular the streak is 0 when [today] has no
    record (whatever older activity exists, and on the empty input), and it
    is 1 when all the records are dated [today]. *)
Theorem current_streak_largest_run (submissions : list Submission)
  (today : Z) :
  exists n : Z,
    current_streak submissions today = Some n
    /\ 0 <= n
    /\ Spec.consecutive submissions today n
    /\ (forall m, Spec.consecutive submissions today m -> m <= n)
    /\ ((forall s, s ∈ submissions -> date (created_at s) <> today) -> n = 0)
    /\ (submissions <> [] ->
        (forall s, s ∈ submissions -> date (created_at s) = today) -> n = 1).
Proof.
  assert (Hloop : exists k, 0 <= k
    /\ current_streak submissions today = Some k
    /\ (forall i, 0 <= i < k -> today - i ∈ submission_dates submissions)
    /\ today - k ∉ submission_dates submissions).
  { destruct submissions as [|s l].
    - exists 0. repeat split; [lia|lia|].
      rewrite elem_of_submission_dates. intros (s & Hs & _).
      now apply elem_of_nil in Hs.
    - unfold current_streak.
      destruct (streak_loop_spec (S (size (submission_dates (s :: l))))
                  (submission_dates (s :: l)) 0 today)
        as (k & Hk & Hrun & Hall & Hstop).
      { apply Nat.lt_succ_r, subseteq_size. intros x.
        rewrite elem_of_filter. tauto. }
      exists k. rewrite Z.add_0_l in Hrun. auto. }
  destruct Hloop as (n & Hn & Hrun & Hall & Hstop).
  assert (Hmax : forall m, Spec.consecutive submissions today m -> m <= n).
  { intros m Hm. destruct (Z_le_gt_dec m n) as [|Hgt]; [assumption|].
    exfalso. apply Hstop. apply elem_of_submission_dates, Hm. lia. }
  exists n. repeat split; try assumption.
  - intros i Hi. apply elem_of_submission_dates, Hall, Hi.
  - intros Hnone. destruct (Z.eq_dec n 0) as [|Hne]; [assumption|].
    exfalso. destruct (proj1 (elem_of_submission_dates submissions today))
      as (s & Hs & Hd).
    { replace today with (today - 0) by lia. apply Hall. lia. }
    exact (Hnone s Hs Hd).
  - intros Hne Honly.
    assert (Spec.consecutive submissions today 1).
    { intros i Hi. destruct submissions as [|s l]; [congruence|].
      exists s. split; [apply list_elem_of_here|].
      rewrite (Honly s) by apply list_elem_of_here. lia. }
    assert (n <= 1); [|specialize (Hmax 1 H); lia].
    destruct (Z_le_gt_dec n 1) as [|Hgt]; [assumption|]. exfalso.
    destruct (proj1 (elem_of_submission_dates submissions (today - 1)))
      as (s & Hs & Hd).
    { apply Hall. lia. }
    specialize (Honly s Hs). lia.
Qed.

(** ** The weekly goal *)

Lemma int_nonneg (x : Q) : 0 <= Qnum x -> Py.int x = Qfloor x.
Proof.
  destruct x as [n d]. cbn [Qnum]. intros Hn. unfold Py.int, Qfloor.
  cbn [Qnum Qden]. apply Z.quot_div_nonneg; lia.
Qed.

Lemma goal_percentage_spec (current target : Z) :
  0 <= current ->
  goal_percentage current target
  = Py.Ok (if 0 <? target
           then Z.min 100 (Qfloor (inject_Z current / inject_Z target * 100))
           else 0).
Proof.
  intros Hc. unfold goal_percentage.
  destruct (Z.ltb_spec 0 target) as [Ht|Ht]; [|reflexivity].
  unfold Py.truediv.
  assert (Qeq_bool (inject_Z target) 0 = false) as ->.
  { unfold Qeq_bool, inject_Z. cbn [Qnum Qden]. apply Z.eqb_neq. lia. }
  cbn [Py.bind]. rewrite int_nonneg; [reflexivity|].
  destruct target as [|p|p]; try lia.
  cbn. lia.
Qed.

Lemma weekday_range (d : Z) : 0 <= weekday d <= 6.
Proof. unfold weekday. pose proof (Z.mod_pos_bound (d + 6) 7). lia. Qed.

Lemma week_start_is_monday (today : Z) : weekday (week_start today) = 0.
Proof.
  unfold week_start, weekday.
  pose proof (Z.div_mod (today + 6) 7) as Hdm.
  replace (today - (today + 6) mod 7 + 6) with ((today + 6) / 7 * 7) by lia.
  apply Z.mod_mul. lia.
Qed.

(** C3. For every list of submissions and every reference day, with the
    fixed target 5: the weekly count is the number of submissions, graded
    or not, dated on or after [today - today.weekday()], which is the
    Monday of the week of [today]; the percentage is
    [min(100, floor(current / target * 100))] when the target is positive
    and 0 otherwise; what remains is [max(0, target - current)]. With 7
    submissions and the target 5 the percentage is 100 and 0 remain. *)
Theorem weekly_goal_progress (submissions : list Submission) (today : Z) :
  let monday := today - weekday today in
  let current :=
    Z.of_nat
      (length (filter (fun s => monday <= date (created_at s)) submissions)) in
  weekly_goal_of submissions today
  = Py.Ok
      {| weekly_goal_current := current;
         weekly_goal_percentage :=
           Z.min 100 (Qfloor (inject_Z current / inject_Z 5 * 100));
         weekly_goal_remaining := Z.max 0 (5 - current) |}
  /\ weekly_goal_target = 5
  /\ weekday monday = 0
  /\ today - 6 <= monday <= today
  /\ (forall current target, 0 <= current ->
      goal_percentage current target
      = Py.Ok (if 0 <? target
               then Z.min 100
                      (Qfloor (inject_Z current / inject_Z target * 100))
               else 0))
  /\ goal_percentage 7 5 = Py.Ok 100
  /\ goal_remaining 7 5 = 0.
Proof.
  intros monday current.
  assert (Hcount :
    Z.of_nat (length (weekly_submissions submissions today)) = current).
  { unfold current, weekly_submissions, week_start, monday. f_equal.
    induction submissions as [|s l IH]; [reflexivity|].
    cbn [List.filter]. rewrite filter_cons.
    destruct (Z.leb_spec (today - weekday today) (date (created_at s)));
      [rewrite decide_True by assumption | rewrite decide_False by lia];
      cbn [length]; now rewrite IH. }
  repeat split.
  - unfold weekly_goal_of. rewrite Hcount.
    rewrite goal_percentage_spec by (unfold current; lia).
    reflexivity.
  - apply week_start_is_monday.
  - pose proof (weekday_range today). unfold monday. lia.
  - pose proof (weekday_range today). unfold monday. lia.
  - intros c t Hc. now apply goal_percentage_spec.
Qed.

(** ** Insights *)

Lemma ltb_spec (x y : Q) : reflect (x < y)%Q (Py.ltb x y).
Proof.
  unfold Py.ltb. destruct (Qle_bool y x) eqn:E; cbn; constructor.
  - apply Qle_bool_iff in E. now apply Qle_not_lt.
  - apply Qnot_le_lt. intros H. apply Qle_bool_iff in H. congruence.
Qed.

Lemma gtb_spec (x y : Q) : reflect (y < x)%Q (Py.gtb x y).
Proof. apply ltb_spec. Qed.

(** The item kept by [max]: it bounds every item, and every item before
    it is strictly smaller. *)
Lemma max_from_spec (best : string * Q) (l : list (string * Q)) :
  exists l1 l2,
    best :: l = l1 ++ max_from best l :: l2
    /\ (forall kv, kv ∈ l1 -> (snd kv < snd (max_from best l))%Q)
    /\ (forall kv, kv ∈ best :: l -> (snd kv <= snd (max_from best l))%Q).
Proof.
  revert best. induction l as [|x l IH]; intros best; cbn [max_from].
  - exists [], []. repeat split.
    + intros kv Hkv. now apply elem_of_nil in Hkv.
    + intros kv Hkv. apply list_elem_of_singleton in Hkv as ->. apply Qle_refl.
  - destruct (gtb_spec (snd x) (snd best)) as [Hgt|Hle].
    + destruct (IH x) as (l1 & l2 & Heq & Hlt & Hbound).
      exists (best :: l1), l2. repeat split.
      * cbn. now rewrite Heq.
      * intros kv Hkv. apply elem_of_cons in Hkv as [->|Hkv]; [|auto].
        eapply Qlt_le_trans; [exact Hgt|]. apply Hbound, list_elem_of_here.
      * intros kv Hkv. apply elem_of_cons in Hkv as [->|Hkv]; [|auto].
        apply Qlt_le_weak. eapply Qlt_le_trans; [exact Hgt|].
        apply Hbound, list_elem_of_here.
    + apply Qnot_lt_le in Hle.
      destruct (IH best) as (l1 & l2 & Heq & Hlt & Hbound).
      assert (Hx : (snd x <= snd (max_from best l))%Q).
      { eapply Qle_trans; [exact Hle|]. apply Hbound, list_elem_of_here. }
      destruct l1 as [|b l1]; cbn [app] in Heq; injection Heq as Hb Hl.
      * exists [], (x :: l). repeat split.
        -- cbn. now rewrite <- Hb.
        -- intros kv Hkv. now apply elem_of_nil in Hkv.
        -- intros kv Hkv. apply elem_of_cons in Hkv as [->|Hkv].
           ++ apply Hbound, list_elem_of_here.
           ++ apply elem_of_cons in Hkv as [->|Hkv]; [exact Hx|].
              apply Hbound. now apply list_elem_of_further.
      * subst b. exists (best :: x :: l1), l2. repeat split.
        -- cbn. now rewrite <- Hl.
        -- intros kv Hkv. apply elem_of_cons in Hkv as [->|Hkv].
           ++ apply Hlt, list_elem_of_here.
           ++ apply elem_of_cons in Hkv as [->|Hkv].
              ** eapply Qle_lt_trans; [exact Hle|].
                 apply Hlt, list_elem_of_here.
              ** apply Hlt. now apply list_elem_of_further.
        -- intros kv Hkv. apply elem_of_cons in Hkv as [->|Hkv].
           ++ apply Hbound, list_elem_of_here.
           ++ apply elem_of_cons in Hkv as [->|Hkv]; [exact Hx|].
              apply Hbound. now apply list_elem_of_further.
Qed.

(** The item kept by [min]: the mirror image. *)
Lemma min_from_spec (best : string * Q) (l : list (string * Q)) :
  exists l1 l2,
    best :: l = l1 ++ min_from best l :: l2
    /\ (forall kv, kv ∈ l1 -> (snd (min_from best l) < snd kv)%Q)
    /\ (forall kv, kv ∈ best :: l -> (snd (min_from best l) <= snd kv)%Q).
Proof.
  revert best. induction l as [|x l IH]; intros best; cbn [min_from].
  - exists [], []. repeat split.
    + intros kv Hkv. now apply elem_of_nil in Hkv.
    + intros kv Hkv. apply list_elem_of_singleton in Hkv as ->. apply Qle_refl.
  - destruct (ltb_spec (snd x) (snd best)) as [Hlt'|Hge].
    + destruct (IH x) as (l1 & l2 & Heq & Hlt & Hbound).
      exists (best :: l1), l2. repeat split.
      * cbn. now rewrite Heq.
      * intros kv Hkv. apply elem_of_cons in Hkv as [->|Hkv]; [|auto].
        eapply Qle_lt_trans; [|exact Hlt']. apply Hbound, list_elem_of_here.
      * intros kv Hkv. apply elem_of_cons in Hkv as [->|Hkv]; [|auto].
        apply Qlt_le_weak. eapply Qle_lt_trans; [|exact Hlt'].
        apply Hbound, list_elem_of_here.
    + apply Qnot_lt_le in Hge.
      destruct (IH best) as (l1 & l2 & Heq & Hlt & Hbound).
      assert (Hx : (snd (min_from best l) <= snd x)%Q).
      { eapply Qle_trans; [|exact Hge]. apply Hbound, list_elem_of_here. }
      destruct l1 as [|b l1]; cbn [app] in Heq; injection Heq as Hb Hl.
      * exists [], (x :: l). repeat split.
        -- cbn. now rewrite <- Hb.
        -- intros kv Hkv. now apply elem_of_nil in Hkv.
        -- intros kv Hkv. apply elem_of_cons in Hkv as [->|Hkv].
           ++ apply Hbound, list_elem_of_here.
           ++ apply elem_of_cons in Hkv as [->|Hkv]; [exact Hx|].
              apply Hbound. now apply list_elem_of_further.
      * subst b. exists (best :: x :: l1), l2. repeat split.
        -- cbn. now rewrite <- Hl.
        -- intros kv Hkv. apply elem_of_cons in Hkv as [->|Hkv].
           ++ apply Hlt, list_elem_of_here.
           ++ apply elem_of_cons in Hkv as [->|Hkv].
              ** eapply Qlt_le_trans; [|exact Hge].
                 apply Hlt, list_elem_of_here.
              ** apply Hlt. now apply list_elem_of_further.
        -- intros kv Hkv. apply elem_of_cons in Hkv as [->|Hkv].
           ++ apply Hbound, list_elem_of_here.
           ++ apply elem_of_cons in Hkv as [->|Hkv]; [exact Hx|].
              apply Hbound. now apply list_elem_of_further.
Qed.

Lemma elem_of_non_zero_scores (A : list (string * Q)) (kv : string * Q) :
  kv ∈ non_zero_scores A <-> kv ∈ A /\ (0 < snd kv)%Q.
Proof.
  unfold non_zero_scores. rewrite !list_elem_of_In, filter_In.
  destruct (gtb_spec (snd kv) 0); intuition congruence.
Qed.

(** An item of the filtered dictionary sits in the full dictionary, and the
    positive items before it there are the items before it after
    filtering. *)
Lemma non_zero_scores_pick (A l1 l2 : list (string * Q)) (r : string * Q) :
  non_zero_scores A = l1 ++ r :: l2 ->
  exists i : nat,
    A !! i = Some r
    /\ forall (j : nat) kv, (j < i)%nat -> A !! j = Some kv ->
         (0 < snd kv)%Q -> kv ∈ l1.
Proof.
  unfold non_zero_scores. revert l1.
  induction A as [|x A IH]; intros l1 Heq; cbn [List.filter] in Heq.
  - now destruct l1.
  - destruct (gtb_spec (snd x) 0) as [Hpos|Hnpos].
    + destruct l1 as [|y l1]; cbn [app] in Heq; injection Heq as Hx Hrest.
      * subst x. exists 0%nat. split; [reflexivity|]. intros j kv Hj. lia.
      * subst y. destruct (IH l1 Hrest) as (i & Hi & Hbefore).
        exists (S i). split; [exact Hi|]. intros [|j] kv Hj Hkv Hp.
        -- cbn in Hkv. injection Hkv as <-. apply list_elem_of_here.
        -- apply list_elem_of_further. apply (Hbefore j); [lia|exact Hkv|exact Hp].
    + destruct (IH l1 Heq) as (i & Hi & Hbefore).
      exists (S i). split; [exact Hi|]. intros [|j] kv Hj Hkv Hp.
      * cbn in Hkv. injection Hkv as <-. contradiction.
      * apply (Hbefore j); [lia|exact Hkv|exact Hp].
Qed.

(** What [insights_of] selects when some area has a positive score. *)
Lemma insights_of_selected (A : list (string * Q)) :
  (exists kv, kv ∈ A /\ (0 < snd kv)%Q) ->
  let r := insights_of A in
  (exists i : nat,
     A !! i = Some (strongest_area r, strongest_score r)
     /\ forall (j : nat) kv, (j < i)%nat -> A !! j = Some kv ->
          (0 < snd kv)%Q -> (snd kv < strongest_score r)%Q)
  /\ (exists i : nat,
        A !! i = Some (weakest_area r, weakest_score r)
        /\ forall (j : nat) kv, (j < i)%nat -> A !! j = Some kv ->
             (0 < snd kv)%Q -> (weakest_score r < snd kv)%Q)
  /\ (0 < weakest_score r)%Q
  /\ (forall kv, kv ∈ A -> (0 < snd kv)%Q ->
        (weakest_score r <= snd kv <= strongest_score r)%Q).
Proof.
  intros (kv0 & Hin0 & Hpos0). unfold insights_of.
  destruct (non_zero_scores A) as [|first rest] eqn:Hnz.
  { exfalso. assert (kv0 ∈ non_zero_scores A)
      by (apply elem_of_non_zero_scores; auto).
    rewrite Hnz in H. now apply elem_of_nil in H. }
  cbn [strongest_area strongest_score weakest_area weakest_score].
  destruct (max_from_spec first rest) as (a1 & a2 & Hmax & Hmax_lt & Hmax_le).
  destruct (min_from_spec first rest) as (b1 & b2 & Hmin & Hmin_lt & Hmin_le).
  rewrite <- Hnz in Hmax_le, Hmin_le.
  rewrite <- surjective_pairing.
  rewrite <- (surjective_pairing (min_from first rest)).
  repeat split.
  - rewrite Hmax in Hnz.
    destruct (non_zero_scores_pick _ _ _ _ Hnz) as (i & Hi & Hbefore).
    exists i. split; [exact Hi|]. intros j kv Hj Hkv Hp.
    apply Hmax_lt. eapply Hbefore; eauto.
  - rewrite Hmin in Hnz.
    destruct (non_zero_scores_pick _ _ _ _ Hnz) as (i & Hi & Hbefore).
    exists i. split; [exact Hi|]. intros j kv Hj Hkv Hp.
    apply Hmin_lt. eapply Hbefore; eauto.
  - assert (min_from first rest ∈ non_zero_scores A).
    { rewrite Hnz, Hmin. apply elem_of_app. right. apply list_elem_of_here. }
    now apply elem_of_non_zero_scores in H.
  - apply Hmin_le. apply elem_of_non_zero_scores. auto.
  - apply Hmax_le. apply elem_of_non_zero_scores. auto.
Qed.

Lemma gtb_zero_false (v : Q) : v == 0 -> Py.gtb v 0 = false.
Proof.
  intros Hv. destruct (gtb_spec v 0) as [Hpos|]; [|reflexivity].
  rewrite Hv in Hpos. now apply Qlt_irrefl in Hpos.
Qed.

Lemma elem_of_area_scores (sp wr qz hw : Q) (kv : string * Q) :
  kv ∈ area_scores sp wr qz hw ->
  snd kv = sp \/ snd kv = wr \/ snd kv = qz \/ snd kv = hw.
Proof.
  unfold area_scores. rewrite !elem_of_cons, elem_of_nil.
  intros [->|[->|[->|[->|[]]]]]; cbn; auto.
Qed.

(** C4. For four area scores (non-negative, as every average of scores
    is): the areas whose score is 0 take no part in the maximum and the
    minimum. When all four scores are 0 the result is the fixed fallback,
    strongest Speaking and weakest Handwritten, both with score 0.0. When
    some score is not 0, the strongest and the weakest are areas of the
    mapping with a nonzero score, listed with their own scores, and every
    nonzero score lies between the weakest and the strongest. *)
Theorem insights_ignore_zero_scores (sp wr qz hw : Q)
  (Hsp : (0 <= sp)%Q) (Hwr : (0 <= wr)%Q) (Hqz : (0 <= qz)%Q)
  (Hhw : (0 <= hw)%Q) :
  let A := area_scores sp wr qz hw in
  let r := insights sp wr qz hw in
  ((forall kv, kv ∈ A -> snd kv == 0) ->
   r = {| strongest_area := "Speaking"; strongest_score := 0;
          weakest_area := "Handwritten"; weakest_score := 0 |})
  /\ ((exists kv, kv ∈ A /\ ~ snd kv == 0) ->
      (strongest_area r, strongest_score r) ∈ A
      /\ ~ strongest_score r == 0
      /\ (weakest_area r, weakest_score r) ∈ A
      /\ ~ weakest_score r == 0
      /\ forall kv, kv ∈ A -> ~ snd kv == 0 ->
           (weakest_score r <= snd kv <= strongest_score r)%Q).
Proof.
  intros A r.
  assert (Hnonneg : forall kv, kv ∈ A -> (0 <= snd kv)%Q).
  { intros kv Hkv.
    destruct (elem_of_area_scores _ _ _ _ _ Hkv) as [->|[->|[->| ->]]];
      assumption. }
  assert (Hpos : forall kv, kv ∈ A -> ~ snd kv == 0 -> (0 < snd kv)%Q).
  { intros kv Hkv Hnz.
    destruct (Qle_lt_or_eq _ _ (Hnonneg kv Hkv)) as [H|H]; [exact H|].
    exfalso. apply Hnz. now symmetry. }
  split.
  - intros Hzero. unfold r, insights, insights_of, non_zero_scores, area_scores.
    unfold A, area_scores in Hzero. cbn [List.filter snd].
    rewrite !gtb_zero_false; [reflexivity| | | |].
    + apply (Hzero ("Handwritten"%string, hw)). set_solver.
    + apply (Hzero ("Quiz"%string, qz)). set_solver.
    + apply (Hzero ("Writing"%string, wr)). set_solver.
    + apply (Hzero ("Speaking"%string, sp)). set_solver.
  - intros (kv0 & Hin0 & Hnz0).
    destruct (insights_of_selected A) as
      ((i & Hi & _) & (j & Hj & _) & Hwpos & Hbounds).
    { exists kv0. auto. }
    fold (insights sp wr qz hw) in Hi, Hj, Hwpos, Hbounds. fold r in Hi, Hj, Hwpos, Hbounds.
    assert (Hspos : (0 < strongest_score r)%Q).
    { eapply Qlt_le_trans; [exact Hwpos|].
      eapply Qle_trans; apply (Hbounds kv0); auto. }
    repeat split.
    + eapply list_elem_of_lookup_2; exact Hi.
    + intros Hz. apply (Qlt_not_eq _ _ Hspos). now symmetry.
    + eapply list_elem_of_lookup_2; exact Hj.
    + intros Hz. apply (Qlt_not_eq _ _ Hwpos). now symmetry.
    + apply Hbounds; auto.
    + apply Hbounds; auto.
Qed.

(** The pair found at an index that is the first to hold a score. *)
Lemma first_with_score (A : list (string * Q)) (i i0 : nat)
  (kv kv0 : string * Q) :
  A !! i = Some kv -> A !! i0 = Some kv0 -> snd kv == snd kv0 ->
  (forall (j : nat) kv', (j < i)%nat -> A !! j = Some kv' ->
     ~ snd kv' == snd kv) ->
  (forall (j : nat) kv', (j < i0)%nat -> A !! j = Some kv' ->
     ~ snd kv' == snd kv0) ->
  kv0 = kv.
Proof.
  intros Hi Hi0 Heq Hfirst Hfirst0.
  destruct (Nat.lt_trichotomy i i0) as [Hlt|[->|Hgt]].
  - exfalso. exact (Hfirst0 i kv Hlt Hi Heq).
  - congruence.
  - exfalso. apply (Hfirst i0 kv0 Hgt Hi0). now symmetry.
Qed.

(** C6. When some area has a positive score, the strongest area is the
    first area, in the fixed order Speaking, Writing, Quiz, Handwritten,
    among the areas that share the maximal score: the reported score is
    positive, no positive score exceeds it, and no area before the
    reported one has the same score; so whichever area has the maximal
    score and comes first among those that have it is the area reported.
    Likewise the weakest area is the first area in that order among those
    that share the minimal nonzero score. *)
Theorem insights_tie_break (sp wr qz hw : Q)
  (Hsome : exists kv, kv ∈ area_scores sp wr qz hw /\ (0 < snd kv)%Q) :
  let A := area_scores sp wr qz hw in
  let r := insights sp wr qz hw in
  map fst A = ["Speaking"; "Writing"; "Quiz"; "Handwritten"]%string
  /\ (exists i : nat,
        A !! i = Some (strongest_area r, strongest_score r)
        /\ (0 < strongest_score r)%Q
        /\ (forall kv, kv ∈ A -> (0 < snd kv)%Q ->
              (snd kv <= strongest_score r)%Q)
        /\ forall (j : nat) kv, (j < i)%nat -> A !! j = Some kv ->
             ~ snd kv == strongest_score r)
  /\ (exists i : nat,
        A !! i = Some (weakest_area r, weakest_score r)
        /\ (0 < weakest_score r)%Q
        /\ (forall kv, kv ∈ A -> (0 < snd kv)%Q ->
              (weakest_score r <= snd kv)%Q)
        /\ forall (j : nat) kv, (j < i)%nat -> A !! j = Some kv ->
             ~ snd kv == weakest_score r)
  /\ (forall (i : nat) (kv : string * Q),
        A !! i = Some kv -> (0 < snd kv)%Q ->
        (forall kv', kv' ∈ A -> (0 < snd kv')%Q -> (snd kv' <= snd kv)%Q) ->
        (forall (j : nat) kv', (j < i)%nat -> A !! j = Some kv' ->
           ~ snd kv' == snd kv) ->
        (strongest_area r, strongest_score r) = kv)
  /\ (forall (i : nat) (kv : string * Q),
        A !! i = Some kv -> (0 < snd kv)%Q ->
        (forall kv', kv' ∈ A -> (0 < snd kv')%Q -> (snd kv <= snd kv')%Q) ->
        (forall (j : nat) kv', (j < i)%nat -> A !! j = Some kv' ->
           ~ snd kv' == snd kv) ->
        (weakest_area r, weakest_score r) = kv).
Proof.
  intros A r.
  destruct (insights_of_selected A Hsome) as
    ((i & Hi & Hbefore_i) & (j & Hj & Hbefore_j) & Hwpos & Hbounds).
  fold (insights sp wr qz hw) in Hi, Hj, Hwpos, Hbounds, Hbefore_i, Hbefore_j.
  fold r in Hi, Hj, Hwpos, Hbounds, Hbefore_i, Hbefore_j.
  destruct Hsome as (kv0 & Hin0 & Hpos0).
  assert (Hspos : (0 < strongest_score r)%Q).
  { eapply Qlt_le_trans; [exact Hpos0|]. now apply (Hbounds kv0). }
  assert (Hfirst_i : forall (j' : nat) kv, (j' < i)%nat -> A !! j' = Some kv ->
            ~ snd kv == strongest_score r).
  { intros j' kv Hlt Hkv Heq.
    assert (Hp : (0 < snd kv)%Q).
    { eapply Qlt_le_trans; [exact Hspos|]. apply Qle_lteq. right.
      now symmetry. }
    exact (Qlt_not_eq _ _ (Hbefore_i j' kv Hlt Hkv Hp) Heq). }
  assert (Hfirst_j : forall (j' : nat) kv, (j' < j)%nat -> A !! j' = Some kv ->
            ~ snd kv == weakest_score r).
  { intros j' kv Hlt Hkv Heq.
    assert (Hp : (0 < snd kv)%Q).
    { eapply Qlt_le_trans; [exact Hwpos|]. apply Qle_lteq. right.
      now symmetry. }
    apply (Qlt_not_eq _ _ (Hbefore_j j' kv Hlt Hkv Hp)). now symmetry. }
  assert (Hsin : (strongest_area r, strongest_score r) ∈ A)
    by (eapply list_elem_of_lookup_2; exact Hi).
  assert (Hwin : (weakest_area r, weakest_score r) ∈ A)
    by (eapply list_elem_of_lookup_2; exact Hj).
  split; [reflexivity|]. split; [|split; [|split]].
  - exists i. split; [exact Hi|]. split; [exact Hspos|].
    split; [|exact Hfirst_i]. intros kv Hkv Hp. now apply Hbounds.
  - exists j. split; [exact Hj|]. split; [exact Hwpos|].
    split; [|exact Hfirst_j]. intros kv Hkv Hp. now apply Hbounds.
  - intros i' kv Hi' Hpos Hmax Hfirst.
    apply (first_with_score A i' i kv _ Hi' Hi); [|exact Hfirst|exact Hfirst_i].
    apply Qle_antisym.
    + now apply (Hbounds kv); [eapply list_elem_of_lookup_2; exact Hi'|].
    + exact (Hmax _ Hsin Hspos).
  - intros i' kv Hi' Hpos Hmin Hfirst.
    apply (first_with_score A i' j kv _ Hi' Hj); [|exact Hfirst|exact Hfirst_j].
    apply Qle_antisym.
    + exact (Hmin _ Hwin Hwpos).
    + now apply (Hbounds kv); [eapply list_elem_of_lookup_2; exact Hi'|].
Qed.

(** ** The recommendation *)

Lemma is_empty_graded_of_type (t : string) (submissions : list Submission) :
  is_empty (graded_of_type t submissions)
  = negb (Spec.has_graded_record t submissions).
Proof.
  unfold graded_of_type, Spec.has_graded_record.
  induction submissions as [|s l IH]; [reflexivity|].
  cbn [List.filter existsb].
  destruct (String.eqb (submission_type s) t && graded s); [reflexivity|].
  exact IH.
Qed.

Lemma recommended_chain (submissions : list Submission) (sp wr : Q) (n : Z) :
  fst (recommended (speaking_subs submissions) (writing_subs submissions)
         sp wr n)
  = Spec.chain Spec.has_graded_record submissions sp wr n.
Proof.
  unfold recommended, Spec.chain, speaking_subs, writing_subs.
  rewrite !is_empty_graded_of_type. cbn [Spec.first_match].
  repeat match goal with |- context [if ?c then _ else _] => destruct c end;
    reflexivity.
Qed.

(** C5, as amended. The recommendation is the first matching rule of the
    chain: (1) no graded speaking record exists, improve speaking; (2) no
    graded writing record exists, improve writing; (3) speaking average
    below 70, improve speaking; (4) writing average below 70, improve
    writing; (5) no quiz completed, take a quiz; (6) otherwise the
    start-an-activity fallback. *)
Theorem recommendation_first_match (submissions : list Submission)
  (all_quizzes : list Quiz) (sp wr : Q)
  (Hsp : speaking_score (speaking_subs submissions) = Py.Ok sp)
  (Hwr : writing_score (writing_subs submissions) = Py.Ok wr) :
  exists link : string,
    recommended_of submissions all_quizzes
    = Py.Ok (Spec.chain Spec.has_graded_record submissions sp wr
               (Z.of_nat (length all_quizzes)), link).
Proof.
  unfold recommended_of. rewrite Hsp, Hwr. cbn [Py.bind].
  rewrite <- recommended_chain. eexists. now rewrite <- surjective_pairing.
Qed.

(** C5, as stated, fails: with a single speaking submission that is not
    graded yet and no writing, a speaking record exists, so the chain read
    on records skips rule (1) and answers with rule (2), improve writing;
    the view answers improve speaking. *)
Lemma recommendation_on_records_fails :
  ~ (forall (submissions : list Submission) (all_quizzes : list Quiz)
       (sp wr : Q),
       speaking_score (speaking_subs submissions) = Py.Ok sp ->
       writing_score (writing_subs submissions) = Py.Ok wr ->
       exists link : string,
         recommended_of submissions all_quizzes
         = Py.Ok (Spec.chain Spec.has_record submissions sp wr
                    (Z.of_nat (length all_quizzes)), link)).
Proof.
  intros H.
  destruct (H [Examples.ungraded "SPEAKING" 1] [] 0%Q 0%Q eq_refl eq_refl)
    as (link & Hlink).
  vm_compute in Hlink. discriminate Hlink.
Qed.

Lemma recommendation_first_match_witness :
  let rows := [Examples.spoken 1 80 60; Examples.scored "WRITING" 2 90] in
  speaking_score (speaking_subs rows) = Py.Ok 70%Q
  /\ writing_score (writing_subs rows) = Py.Ok 90%Q
  /\ exists link : string,
       recommended_of rows [] = Py.Ok ("Take a Quiz"%string, link).
Proof.
  split; [reflexivity|]. split; [reflexivity|].
  exact (recommendation_first_match
           [Examples.spoken 1 80 60; Examples.scored "WRITING" 2 90] []
           70%Q 90%Q eq_refl eq_refl).
Defined.

(** ** The area averages *)

Lemma graded_of_type_graded (t : string) (submissions : list Submission)
  (s : Submission) :
  s ∈ graded_of_type t submissions -> graded s = true.
Proof.
  unfold graded_of_type. rewrite list_elem_of_In, filter_In.
  intros [_ H]. now apply andb_prop in H.
Qed.

Lemma filter_graded_graded (submissions : list Submission) (s : Submission) :
  s ∈ List.filter graded submissions -> graded s = true.
Proof. rewrite list_elem_of_In, filter_In. tauto. Qed.

Lemma speaking_scores_loop (subs : list Submission) (scores : list Q) :
  (forall s, s ∈ subs -> graded s = true) ->
  for_each speaking_scores_step subs scores
  = Py.Ok (scores ++ Spec.speaking_values subs).
Proof.
  revert scores. induction subs as [|s subs IH]; intros scores Hg.
  - cbn. now rewrite app_nil_r.
  - assert (Hs : graded s = true) by apply Hg, list_elem_of_here.
    assert (Hrest : forall s', s' ∈ subs -> graded s' = true)
      by (intros s' Hs'; now apply Hg, list_elem_of_further).
    cbn [for_each Spec.speaking_values]. unfold speaking_scores_step.
    unfold graded in Hs. destruct (grade s) as [[sc [p|] [f|]]|];
      cbn [pronunciation_score fluency_score Py.is_not_None] in *;
      try discriminate Hs; cbn [Py.bind]; try (now apply IH).
    destruct (Py.truthy (Some p) && Py.truthy (Some f)); cbn [Py.bind].
    + rewrite IH by assumption. now rewrite <- app_assoc.
    + now apply IH.
Qed.

Lemma speaking_score_spec (submissions : list Submission) :
  speaking_score (speaking_subs submissions)
  = Py.Ok (Spec.average (Spec.speaking_values (speaking_subs submissions))).
Proof.
  unfold speaking_score.
  destruct (speaking_subs submissions) as [|s l] eqn:E; [reflexivity|].
  rewrite <- E. rewrite speaking_scores_loop.
  - cbn [Py.bind app]. apply rounded_mean_spec.
  - intros s'. apply graded_of_type_graded.
Qed.

Lemma sum_scores_from_spec (subs : list Submission) (acc : Q) :
  (forall s, s ∈ subs -> graded s = true) ->
  sum_scores_from acc subs
  = match Spec.scores_of subs with
    | Some vs => Py.Ok (fold_left Qplus vs acc)
    | None => Py.Raise Py.TypeError
    end.
Proof.
  revert acc. induction subs as [|s subs IH]; intros acc Hg; [reflexivity|].
  assert (Hs : graded s = true) by apply Hg, list_elem_of_here.
  assert (Hrest : forall s', s' ∈ subs -> graded s' = true)
    by (intros s' Hs'; now apply Hg, list_elem_of_further).
  cbn [sum_scores_from Spec.scores_of]. unfold grade_score, graded in *.
  destruct (grade s) as [[[v|] p f]|]; cbn [Py.is_not_None score] in *;
    try discriminate Hs; cbn [Py.bind Py.add]; [|reflexivity].
  rewrite IH by assumption. now destruct (Spec.scores_of subs).
Qed.

Lemma scores_of_length (subs : list Submission) (vs : list Q) :
  Spec.scores_of subs = Some vs -> length vs = length subs.
Proof.
  revert vs. induction subs as [|s subs IH]; intros vs; cbn [Spec.scores_of].
  - now intros [= <-].
  - destruct (grade s) as [[[v|] p f]|]; try discriminate.
    destruct (Spec.scores_of subs) as [vs'|]; [|discriminate].
    intros [= <-]. cbn. now rewrite (IH vs').
Qed.

(** The shared average expression over graded submissions: the rounded
    exact mean of the scores, [0.0] over none, and a [TypeError] when a
    grade holds no score. *)
Lemma average_of_scores_spec (subs : list Submission) :
  (forall s, s ∈ subs -> graded s = true) ->
  average_of_scores subs
  = match Spec.scores_of subs with
    | Some vs => Py.Ok (Spec.average vs)
    | None => Py.Raise Py.TypeError
    end.
Proof.
  intros Hg. unfold average_of_scores.
  destruct subs as [|s l] eqn:E; [reflexivity|]. rewrite <- E in *.
  rewrite sum_scores_from_spec by assumption.
  destruct (Spec.scores_of subs) as [vs|] eqn:Hvs; [|reflexivity].
  cbn [Py.bind]. pose proof (scores_of_length _ _ Hvs) as Hlen.
  rewrite E. rewrite truediv_len. cbn [Py.bind]. rewrite <- E.
  destruct vs as [|v vs]; [rewrite E in Hlen; discriminate Hlen|].
  unfold Spec.average, Spec.mean, Py.sum_num, Py.len. now rewrite Hlen.
Qed.

Lemma quiz_score_of_spec (all_quizzes : list Quiz) :
  quiz_score_of all_quizzes
  = Py.Ok (Spec.average (omap quiz_score all_quizzes)).
Proof.
  destruct all_quizzes as [|q l]; [reflexivity|].
  apply rounded_mean_spec.
Qed.

(** ** Rounding *)

(** [round_half_even] returns a nearest integer, and on an exact half the
    even one. *)
Lemma round_half_even_nearest (x : Q) :
  (Qabs (x - inject_Z (Py.round_half_even x)) <= 1 # 2)%Q
  /\ (Qabs (x - inject_Z (Py.round_half_even x)) == 1 # 2 ->
      Z.even (Py.round_half_even x) = true).
Proof.
  unfold Py.round_half_even.
  pose proof (Qfloor_le x) as Hlo. pose proof (Qlt_floor x) as Hhi.
  rewrite inject_Z_plus in Hhi. change (inject_Z 1) with 1%Q in Hhi.
  set (f := Qfloor x) in *.
  destruct (Qcompare_spec (x - inject_Z f) (1 # 2)) as [Heq|Hlt|Hgt].
  - destruct (Z.even f) eqn:Hev.
    + split; [|auto]. rewrite Qabs_pos by lra. lra.
    + rewrite inject_Z_plus. change (inject_Z 1) with 1%Q. split.
      * rewrite Qabs_neg by lra. lra.
      * intros _. rewrite Z.add_1_r, Z.even_succ, <- Z.negb_even, Hev.
        reflexivity.
  - split.
    + rewrite Qabs_pos by lra. lra.
    + rewrite Qabs_pos by lra. lra.
  - rewrite inject_Z_plus. change (inject_Z 1) with 1%Q. split.
    + rewrite Qabs_neg by lra. lra.
    + rewrite Qabs_neg by lra. lra.
Qed.

Lemma Qfloor_unique (y : Q) (n : Z) :
  (inject_Z n <= y)%Q -> (y < inject_Z n + 1)%Q -> Qfloor y = n.
Proof.
  intros Hlo Hhi.
  pose proof (Qfloor_le y) as Hf1. pose proof (Qlt_floor y) as Hf2.
  rewrite inject_Z_plus in Hf2. change (inject_Z 1) with 1%Q in Hf2.
  assert (H1 : (inject_Z n < inject_Z (Qfloor y + 1))%Q).
  { rewrite inject_Z_plus. change (inject_Z 1) with 1%Q. lra. }
  assert (H2 : (inject_Z (Qfloor y) < inject_Z (n + 1))%Q).
  { rewrite inject_Z_plus. change (inject_Z 1) with 1%Q. lra. }
  rewrite <- Zlt_Qlt in H1, H2. lia.
Qed.

Lemma Qceiling_unique (y : Q) (n : Z) :
  (inject_Z n - 1 < y)%Q -> (y <= inject_Z n)%Q -> Qceiling y = n.
Proof.
  intros Hlo Hhi. unfold Qceiling.
  rewrite (Qfloor_unique (- y) (- n)); [lia| |].
  - rewrite inject_Z_opp. lra.
  - rewrite inject_Z_opp. lra.
Qed.

(** Away from the exact halves the two rounding rules agree. *)
Lemma round_half_even_away (x : Q) :
  ~ x - inject_Z (Qfloor x) == 1 # 2 ->
  Py.round_half_even x = Spec.round_half_away x.
Proof.
  intros Hhalf. unfold Py.round_half_even, Spec.round_half_away.
  pose proof (Qfloor_le x) as Hlo. pose proof (Qlt_floor x) as Hhi.
  rewrite inject_Z_plus in Hhi. change (inject_Z 1) with 1%Q in Hhi.
  set (f := Qfloor x) in *.
  destruct (Qcompare_spec (x - inject_Z f) (1 # 2)) as [Heq|Hlt|Hgt];
    [contradiction| |]; destruct (Qle_bool 0 x); symmetry.
  - apply Qfloor_unique; lra.
  - apply Qceiling_unique; lra.
  - apply Qfloor_unique; rewrite inject_Z_plus;
      change (inject_Z 1) with 1%Q; lra.
  - apply Qceiling_unique; rewrite inject_Z_plus;
      change (inject_Z 1) with 1%Q; lra.
Qed.

Lemma round1_value (x : Q) :
  Py.round1 x == inject_Z (Py.round_half_even (x * 10)) / 10.
Proof.
  unfold Py.round1. rewrite Qred_correct.
  unfold Qeq, Qdiv, Qmult, Qinv, inject_Z. cbn. lia.
Qed.

(** In exact arithmetic already the claimed rule fails: four writing
    scores 72, 72, 72 and 73 have the mean 72.25, an exact half at one
    decimal; rounding halves away from zero gives 72.3, the exact
    embedding of the view gives 72.2. *)
Lemma average_not_half_away :
  ~ (forall (submissions : list Submission) (vs : list Q),
       Spec.scores_of (writing_subs submissions) = Some vs ->
       exists avg : Q,
         writing_score (writing_subs submissions) = Py.Ok avg
         /\ avg == Spec.average_half_away vs).
Proof.
  intros H.
  destruct (H [Examples.scored "WRITING" 1 72; Examples.scored "WRITING" 1 72;
               Examples.scored "WRITING" 2 72; Examples.scored "WRITING" 3 73]
              [72; 72; 72; 73]%Q eq_refl) as (avg & Havg & Heq).
  vm_compute in Havg. injection Havg as <-.
  vm_compute in Heq. discriminate Heq.
Qed.

(** ** The averages in binary64 arithmetic *)

Lemma truediv_int_succ (a : Binary64.float) (n : nat) :
  Binary64.truediv_int a (Z.of_nat (S n))
  = Py.Ok (PrimFloat.div a (Binary64.of_Z (Z.of_nat (S n)))).
Proof.
  unfold Binary64.truediv_int.
  destruct (Z.eqb_spec (Z.of_nat (S n)) 0) as [H|_]; [lia|reflexivity].
Qed.

Lemma rounded_mean_binary64 (l : list Binary64.float) :
  Binary64.rounded_mean l = Py.Ok (Binary64.average l).
Proof.
  destruct l as [|x l]; [reflexivity|].
  unfold Binary64.rounded_mean, Binary64.average. cbn [length].
  rewrite truediv_int_succ. reflexivity.
Qed.

Lemma speaking_loop_binary64 (submissions : list Submission)
  (scores : list Binary64.float) :
  for_each Binary64.speaking_scores_step (speaking_subs submissions) scores
  = Py.Ok (scores ++ Binary64.speaking_values submissions).
Proof.
  unfold speaking_subs, graded_of_type. revert scores.
  induction submissions as [|s l IH]; intros scores.
  - cbn. now rewrite app_nil_r.
  - cbn [List.filter Binary64.speaking_values]. unfold Charted.of_kind, graded.
    destruct (String.eqb (submission_type s) "SPEAKING"); cbn [andb];
      [|apply IH].
    destruct (grade s) as [g|] eqn:Hg; cbn [Py.is_not_None]; [|apply IH].
    cbn [for_each]. unfold Binary64.speaking_scores_step at 1. rewrite Hg.
    destruct g as [sc [p|] [f|]];
      cbn [pronunciation_score fluency_score Py.bind]; try apply IH.
    destruct (Binary64.truthy (Binary64.stored p)
              && Binary64.truthy (Binary64.stored f)); cbn [Py.bind].
    + rewrite IH. now rewrite <- app_assoc.
    + apply IH.
Qed.

Lemma speaking_score_binary64 (submissions : list Submission) :
  Binary64.speaking_score (speaking_subs submissions)
  = Py.Ok (Binary64.average (Binary64.speaking_values submissions)).
Proof.
  unfold Binary64.speaking_score.
  pose proof (speaking_loop_binary64 submissions []) as Hloop.
  destruct (speaking_subs submissions) as [|s l] eqn:E.
  - cbn in Hloop. injection Hloop as <-. reflexivity.
  - rewrite Hloop. cbn [Py.bind app]. apply rounded_mean_binary64.
Qed.

Lemma sum_scores_binary64 (k : string) (submissions : list Submission)
  (acc : Binary64.float) :
  Binary64.sum_scores_from acc (graded_of_type k submissions)
  = match Binary64.scores k submissions with
    | Some vs => Py.Ok (fold_left PrimFloat.add vs acc)
    | None => Py.Raise Py.TypeError
    end.
Proof.
  unfold graded_of_type. revert acc.
  induction submissions as [|s l IH]; intros acc; [reflexivity|].
  cbn [List.filter Binary64.scores]. unfold Charted.of_kind, graded.
  destruct (String.eqb (submission_type s) k); cbn [andb]; [|apply IH].
  destruct (grade s) as [g|] eqn:Hg; cbn [Py.is_not_None]; [|apply IH].
  cbn [Binary64.sum_scores_from]. unfold grade_score. rewrite Hg.
  cbn [Py.bind]. destruct (score g) as [v|]; [|reflexivity].
  rewrite IH. now destruct (Binary64.scores k l).
Qed.

Lemma scores_length_binary64 (k : string) (submissions : list Submission)
  (vs : list Binary64.float) :
  Binary64.scores k submissions = Some vs ->
  length vs = length (graded_of_type k submissions).
Proof.
  unfold graded_of_type. revert vs.
  induction submissions as [|s l IH]; intros vs.
  - now intros [= <-].
  - cbn [List.filter Binary64.scores]. unfold Charted.of_kind, graded.
    destruct (String.eqb (submission_type s) k); cbn [andb]; [|apply IH].
    destruct (grade s) as [g|] eqn:Hg; cbn [Py.is_not_None]; [|apply IH].
    destruct (score g) as [v|]; [|discriminate].
    destruct (Binary64.scores k l) as [vs'|]; [|discriminate].
    intros [= <-]. cbn [length]. now rewrite (IH vs').
Qed.

Lemma average_of_scores_binary64 (k : string)
  (submissions : list Submission) :
  Binary64.average_of_scores (graded_of_type k submissions)
  = match Binary64.scores k submissions with
    | Some vs => Py.Ok (Binary64.average vs)
    | None => Py.Raise Py.TypeError
    end.
Proof.
  unfold Binary64.average_of_scores.
  pose proof (sum_scores_binary64 k submissions PrimFloat.zero) as Hsum.
  pose proof (scores_length_binary64 k submissions) as Hlen.
  destruct (graded_of_type k submissions) as [|s l] eqn:E.
  - destruct (Binary64.scores k submissions) as [vs|]; [|discriminate Hsum].
    specialize (Hlen vs eq_refl). now destruct vs.
  - rewrite Hsum.
    destruct (Binary64.scores k submissions) as [vs|]; [|reflexivity].
    specialize (Hlen vs eq_refl). cbn [Py.bind length] in *.
    rewrite truediv_int_succ. cbn [Py.bind].
    destruct vs as [|v vs]; [discriminate Hlen|].
    unfold Binary64.average, Binary64.sum. now rewrite Hlen.
Qed.

Lemma quiz_score_binary64 (all_quizzes : list Quiz) :
  Binary64.quiz_score_of all_quizzes
  = Py.Ok (Binary64.average (Binary64.quiz_values all_quizzes)).
Proof.
  assert (Hvals : forall l,
            map Binary64.stored (omap quiz_score l) = Binary64.quiz_values l).
  { induction l as [|q l IH]; [reflexivity|].
    cbn [omap list_omap Binary64.quiz_values].
    destruct (quiz_score q) as [v|]; cbn [map]; now rewrite IH. }
  unfold Binary64.quiz_score_of.
  destruct all_quizzes as [|q l]; [reflexivity|].
  rewrite Hvals. apply rounded_mean_binary64.
Qed.

Lemma append_at_lookup_binary64 (k : Z) (v : Binary64.float)
  (m : gmap Z (list Binary64.float)) (d : Z) :
  Binary64.append_at k v m !! d
  = if decide (d = k) then Some (default [] (m !! k) ++ [v]) else m !! d.
Proof.
  unfold Binary64.append_at. case_decide as Hd.
  - subst d. destruct (m !! k) as [l|] eqn:E.
    + rewrite lookup_alter_eq, E. reflexivity.
    + rewrite lookup_alter_eq, lookup_insert_eq. reflexivity.
  - destruct (m !! k) as [l|] eqn:E.
    + rewrite lookup_alter_ne by congruence. reflexivity.
    + rewrite lookup_alter_ne, lookup_insert_ne by congruence. reflexivity.
Qed.

Lemma fold_by_date_binary64 (items : list Submission)
  (m : gmap Z (list Binary64.float)) (d : Z) :
  fold_left Binary64.by_date_step items m !! d
  = match Binary64.values_on d (omap Binary64.speaking_event items) with
    | [] => m !! d
    | (_ :: _) as l => Some (default [] (m !! d) ++ l)
    end.
Proof.
  revert m. induction items as [|x items IH]; intros m; [reflexivity|].
  cbn [fold_left omap list_omap]. rewrite IH. unfold Binary64.by_date_step.
  destruct (Binary64.speaking_event x) as [[k v]|]; [|reflexivity].
  unfold Binary64.values_on. cbn [List.filter fst].
  rewrite append_at_lookup_binary64.
  destruct (Z.eqb_spec k d) as [->|Hne].
  - rewrite decide_True by reflexivity. cbn [map snd default].
    destruct (map snd _) as [|y l]; cbn [default].
    + reflexivity.
    + unfold id. now rewrite <- app_assoc.
  - rewrite decide_False by congruence. reflexivity.
Qed.

Lemma speaking_points_binary64 (submissions : list Submission) :
  omap Binary64.speaking_event (speaking_subs submissions)
  = Binary64.speaking_points submissions.
Proof.
  unfold speaking_subs, graded_of_type.
  induction submissions as [|s l IH]; [reflexivity|].
  cbn [Binary64.speaking_points List.filter]. unfold Charted.of_kind, graded.
  destruct (String.eqb (submission_type s) "SPEAKING"); cbn [andb];
    [|exact IH].
  destruct (grade s) as [g|] eqn:Hg; cbn [Py.is_not_None]; [|exact IH].
  cbn [omap list_omap]. unfold Binary64.speaking_event at 1. rewrite Hg.
  destruct g as [sc [p|] [f|]]; cbn [pronunciation_score fluency_score date];
    first [exact IH | now rewrite <- IH].
Qed.

Lemma series_value_binary64 (submissions : list Submission) (d : Z) :
  Binary64.series_value
    (Binary64.speaking_by_date (speaking_subs submissions)) d
  = Py.Ok
      (Binary64.average
         (Binary64.values_on d (Binary64.speaking_points submissions))).
Proof.
  unfold Binary64.series_value, Binary64.speaking_by_date.
  rewrite fold_by_date_binary64, lookup_empty, speaking_points_binary64.
  destruct (Binary64.values_on d _) as [|x l]; [reflexivity|].
  cbn [default app length]. rewrite truediv_int_succ. reflexivity.
Qed.

(** C7, as stated, fails: four writing scores 72, 72, 72 and 73 have the
    float mean 72.25, exactly, a tie at one decimal; rounding ties away
    from zero gives 72.3, the view computes 72.2. *)
Lemma average_not_half_away_binary64 :
  ~ (forall (submissions : list Submission) (vs : list Binary64.float),
       Binary64.scores "WRITING" submissions = Some vs ->
       exists avg : Binary64.float,
         Binary64.writing_score (writing_subs submissions) = Py.Ok avg
         /\ PrimFloat.eqb avg (Binary64.average_half_away vs) = true).
Proof.
  intros H.
  destruct (H [Examples.scored "WRITING" 1 72; Examples.scored "WRITING" 1 72;
               Examples.scored "WRITING" 2 72; Examples.scored "WRITING" 3 73]
              _ eq_refl) as (avg & Havg & Heq).
  vm_compute in Havg. injection Havg as <-.
  vm_compute in Heq. discriminate Heq.
Qed.

(** C7, as amended. Every per-area average is the float quotient of the
    sum of the unrounded per-event values by their number, rounded once,
    at the end, to one decimal by [round]. [round] takes the tenth nearest
    to the exact binary value of that quotient and, when this value is
    exactly half-way, the even tenth; away from such values this is
    rounding half away from zero. The speaking per-event value is the
    unrounded float mean of the two sub-scores, and the chart applies the
    same rounding to the float mean of each day's bucket. Twenty writing
    scores, thirteen of 70 and seven of 71, have the exact mean 70.35; the
    float quotient lies below it and the average is 70.3. *)
Theorem averages_rounded_once_binary64 (submissions : list Submission)
  (all_quizzes : list Quiz) :
  (forall (x : Binary64.float) (q : Q),
     Binary64.value x = Some q ->
     let n := Py.round_half_even (q * 10) in
     Binary64.round1 x = Binary64.tenths x n
     /\ (Qabs (q * 10 - inject_Z n) <= 1 # 2)%Q
     /\ (Qabs (q * 10 - inject_Z n) == 1 # 2 -> Z.even n = true)
     /\ (~ q * 10 - inject_Z (Qfloor (q * 10)) == 1 # 2 ->
         Binary64.round1 x = Binary64.round1_half_away x))
  /\ Binary64.speaking_score (speaking_subs submissions)
     = Py.Ok (Binary64.average (Binary64.speaking_values submissions))
  /\ (forall vs : list Binary64.float,
        Binary64.scores "WRITING" submissions = Some vs ->
        Binary64.writing_score (writing_subs submissions)
        = Py.Ok (Binary64.average vs))
  /\ (forall vs : list Binary64.float,
        Binary64.scores "HANDWRITTEN" submissions = Some vs ->
        Binary64.handwritten_score (handwritten_subs submissions)
        = Py.Ok (Binary64.average vs))
  /\ Binary64.quiz_score_of all_quizzes
     = Py.Ok (Binary64.average (Binary64.quiz_values all_quizzes))
  /\ (forall (s : Submission) (d : Z) (v : Binary64.float),
        Binary64.speaking_event s = Some (d, v) ->
        exists g p f,
          grade s = Some g /\ pronunciation_score g = Some p
          /\ fluency_score g = Some f
          /\ v = PrimFloat.div
                   (PrimFloat.add (Binary64.stored p) (Binary64.stored f))
                   (Binary64.of_Z 2))
  /\ (forall d : Z,
        Binary64.series_value
          (Binary64.speaking_by_date (speaking_subs submissions)) d
        = Py.Ok
            (Binary64.average
               (Binary64.values_on d (Binary64.speaking_points submissions))))
  /\ Binary64.writing_score
       (writing_subs
          (List.repeat (Examples.scored "WRITING" 1 70) 13
           ++ List.repeat (Examples.scored "WRITING" 2 71) 7))
     = Py.Ok (PrimFloat.div (Binary64.of_Z 703) (Binary64.of_Z 10))
  /\ Binary64.writing_score
       (writing_subs
          [Examples.scored "WRITING" 1 72; Examples.scored "WRITING" 1 72;
           Examples.scored "WRITING" 2 72; Examples.scored "WRITING" 3 73])
     = Py.Ok (PrimFloat.div (Binary64.of_Z 722) (Binary64.of_Z 10)).
Proof.
  split.
  { intros x q Hq n. unfold Binary64.round1, Binary64.round1_half_away.
    rewrite Hq. split; [reflexivity|].
    split; [apply round_half_even_nearest|].
    split; [apply round_half_even_nearest|].
    intros Hhalf. now rewrite round_half_even_away. }
  split; [apply speaking_score_binary64|].
  split.
  { intros vs Hvs. unfold Binary64.writing_score, writing_subs.
    now rewrite average_of_scores_binary64, Hvs. }
  split.
  { intros vs Hvs. unfold Binary64.handwritten_score, handwritten_subs.
    now rewrite average_of_scores_binary64, Hvs. }
  split; [apply quiz_score_binary64|].
  split.
  { intros s d v. unfold Binary64.speaking_event.
    destruct (grade s) as [g|]; [|discriminate].
    destruct (pronunciation_score g) as [p|] eqn:Hp; [|discriminate].
    destruct (fluency_score g) as [f|] eqn:Hf; [|discriminate].
    intros [= <- <-]. eauto 10. }
  split; [intros d; apply series_value_binary64|].
  split; vm_compute; reflexivity.
Qed.

(** The exact embedding of the same twenty scores rounds the tie 70.35 to
    70.4: the exact averages stand for the computed ones up to the choice
    of the tenth at such a value. *)
Lemma exact_average_at_a_decimal_tie :
  writing_score
    (writing_subs
       (List.repeat (Examples.scored "WRITING" 1 70) 13
        ++ List.repeat (Examples.scored "WRITING" 2 71) 7))
  = Py.Ok (352 # 5)%Q.
Proof. vm_compute. reflexivity. Qed.

(** ** Totality of the averages *)

(** The averages never divide by zero, the speaking and quiz averages
    always return, and every average is [0.0] over no graded record. *)
Lemma averages_guarded (submissions : list Submission)
  (all_quizzes : list Quiz) :
  Py.returns (speaking_score (speaking_subs submissions))
  /\ Py.returns (quiz_score_of all_quizzes)
  /\ writing_score (writing_subs submissions)
     <> Py.Raise Py.ZeroDivisionError
  /\ handwritten_score (handwritten_subs submissions)
     <> Py.Raise Py.ZeroDivisionError
  /\ avg_score submissions <> Py.Raise Py.ZeroDivisionError
  /\ Instructor.class_average submissions <> Py.Raise Py.ZeroDivisionError
  /\ speaking_score [] = Py.Ok 0%Q
  /\ average_of_scores [] = Py.Ok 0%Q
  /\ quiz_score_of [] = Py.Ok 0%Q.
Proof.
  assert (Hnz : forall subs, (forall s, s ∈ subs -> graded s = true) ->
            average_of_scores subs <> Py.Raise Py.ZeroDivisionError).
  { intros subs Hg. rewrite average_of_scores_spec by assumption.
    destruct (Spec.scores_of subs); discriminate. }
  repeat split.
  - now rewrite speaking_score_spec.
  - now rewrite quiz_score_of_spec.
  - apply Hnz. intros s. apply graded_of_type_graded.
  - apply Hnz. intros s. apply graded_of_type_graded.
  - apply Hnz. intros s. apply filter_graded_graded.
  - apply Hnz. intros s. apply filter_graded_graded.
Qed.

(** C8. The averages are not total: on a graded writing submission whose
    grade holds no score, the writing average, the average over all graded
    submissions and the class average raise a [TypeError]; so does the
    handwritten average on such a handwritten submission, and the overall
    and class averages on a speaking submission graded with its two
    sub-scores only. *)
Theorem averages_raise_on_missing_score :
  writing_score (writing_subs [Examples.unscored "WRITING" 1])
  = Py.Raise Py.TypeError
  /\ handwritten_score
       (handwritten_subs [Examples.unscored "HANDWRITTEN" 1])
     = Py.Raise Py.TypeError
  /\ avg_score [Examples.unscored "WRITING" 1] = Py.Raise Py.TypeError
  /\ Instructor.class_average [Examples.unscored "WRITING" 1]
     = Py.Raise Py.TypeError
  /\ avg_score [Examples.spoken 1 80 60] = Py.Raise Py.TypeError
  /\ Instructor.class_average [Examples.spoken 1 80 60]
     = Py.Raise Py.TypeError.
Proof. repeat split. Qed.

(** ** A zero sub-score: out of the average, in the chart *)

Lemma speaking_values_app (l1 l2 : list Submission) :
  Spec.speaking_values (l1 ++ l2)
  = Spec.speaking_values l1 ++ Spec.speaking_values l2.
Proof.
  induction l1 as [|s l1 IH]; [reflexivity|].
  cbn [app Spec.speaking_values].
  destruct (grade s) as [[sc [p|] [f|]]|]; try exact IH.
  destruct (Py.truthy (Some p) && Py.truthy (Some f)); [|exact IH].
  cbn [app]. now rewrite IH.
Qed.

Lemma truthy_zero (p f : Q) :
  p == 0 \/ f == 0 -> Py.truthy (Some p) && Py.truthy (Some f) = false.
Proof.
  unfold Py.truthy. intros [H|H]; apply Qeq_bool_iff in H; rewrite H;
    [reflexivity | apply andb_false_r].
Qed.

(** C10. A graded speaking submission whose two sub-scores are present,
    one of them being 0, adds nothing to the speaking average (its
    sub-scores are tested for truth) and is an event of the speaking chart
    series (they are tested against [None]): on that submission alone the
    average is 0.0 while the series holds the rounded mean of its
    sub-scores for its day. With the sub-scores 0 and 80 the average is
    0.0 and the series holds 40. *)
Theorem zero_subscore_average_and_chart (strftime_d_b : Z -> string)
  (s : Submission) (g : Grade) (p f : Q)
  (Htype : submission_type s = "SPEAKING"%string)
  (Hgrade : grade s = Some g)
  (Hp : pronunciation_score g = Some p)
  (Hf : fluency_score g = Some f)
  (Hzero : p == 0 \/ f == 0) :
  (forall l1 l2 : list Submission,
     speaking_score (speaking_subs (l1 ++ s :: l2))
     = speaking_score (speaking_subs (l1 ++ l2)))
  /\ speaking_score (speaking_subs [s]) = Py.Ok 0%Q
  /\ speaking_event s = Some (date (created_at s), ((p + f) / 2)%Q)
  /\ (exists chart : chart_data,
        chart_of strftime_d_b [s] [] = Py.Ok chart
        /\ dates chart = [strftime_d_b (date (created_at s))]
        /\ speaking_scores chart
           = [Py.round1 (Spec.mean [((p + f) / 2)%Q])])
  /\ (exists chart : chart_data,
        speaking_score (speaking_subs [Examples.spoken 1 0 80]) = Py.Ok 0%Q
        /\ chart_of strftime_d_b [Examples.spoken 1 0 80] [] = Py.Ok chart
        /\ speaking_scores chart = [40%Q]).
Proof.
  assert (Hkeep : speaking_subs [s] = [s]).
  { unfold speaking_subs, graded_of_type, graded. cbn [List.filter].
    rewrite Htype, Hgrade. reflexivity. }
  assert (Hnone : Spec.speaking_values [s] = []).
  { cbn [Spec.speaking_values]. rewrite Hgrade. destruct g as [sc pr fl].
    cbn in Hp, Hf. subst pr fl. now rewrite truthy_zero. }
  assert (Hevent :
    speaking_event s = Some (date (created_at s), ((p + f) / 2)%Q)).
  { unfold speaking_event. now rewrite Hgrade, Hp, Hf. }
  split; [|split; [|split; [exact Hevent|split]]].
  - intros l1 l2. rewrite !speaking_score_spec. do 2 f_equal.
    unfold speaking_subs, graded_of_type in *.
    rewrite !List.filter_app. cbn [List.filter].
    change (List.filter _ [s]) with (speaking_subs [s]) in Hkeep.
    assert (Hpass :
      String.eqb (submission_type s) "SPEAKING" && graded s = true).
    { unfold graded. rewrite Htype, Hgrade. reflexivity. }
    rewrite Hpass.
    change (?a ++ s :: ?b) with (a ++ [s] ++ b).
    rewrite !speaking_values_app, Hnone. reflexivity.
  - rewrite speaking_score_spec, Hkeep, Hnone. reflexivity.
  - eexists. split; [|split].
    + unfold chart_of, build_chart. apply chart_loop_spec.
    + cbn [dates app]. unfold sorted_dates, all_dates.
      rewrite Hkeep. unfold handwritten_subs, writing_subs, graded_of_type.
      cbn [List.filter]. rewrite Htype. cbn [String.eqb Ascii.eqb Bool.eqb andb].
      unfold collect_dates. cbn [fold_left]. unfold dates_step.
      rewrite Hevent. rewrite union_empty_l_L, elements_singleton.
      reflexivity.
    + cbn [speaking_scores app]. unfold sorted_dates, all_dates.
      rewrite Hkeep. unfold handwritten_subs, writing_subs, graded_of_type.
      cbn [List.filter]. rewrite Htype. cbn [String.eqb Ascii.eqb Bool.eqb andb].
      unfold collect_dates. cbn [fold_left]. unfold dates_step.
      rewrite Hevent. rewrite union_empty_l_L, elements_singleton.
      cbn [omap list_omap]. rewrite Hevent.
      change (merge_sort Z.le [date (created_at s)])
        with [date (created_at s)].
      unfold Spec.slot, Spec.values_on. cbn [map List.filter fst].
      rewrite Z.eqb_refl. reflexivity.
  - eexists. split; [reflexivity|]. split.
    + unfold chart_of, build_chart. apply chart_loop_spec.
    + vm_compute. reflexivity.
Qed.

(** ** The instructor sparkline *)

Section Buckets.

Import Instructor.

Variable today : Z.

Lemma last_7_days_lookup (i : nat) :
  (i < 7)%nat -> last_7_days today !! i = Some (today - 6 + Z.of_nat i).
Proof.
  intros Hi. unfold last_7_days.
  do 7 (destruct i as [|i]; [cbn; f_equal; lia|]). lia.
Qed.

Lemma elem_of_last_7_days (i : nat) :
  (i < 7)%nat -> today - 6 + Z.of_nat i ∈ last_7_days today.
Proof.
  intros Hi. eapply list_elem_of_lookup_2. now apply last_7_days_lookup.
Qed.

Lemma incr_lookup (k d : Z) (m : gmap Z Z) :
  default 0 (incr k m !! d)
  = default 0 (m !! d) + (if decide (k = d) then 1 else 0).
Proof.
  unfold incr. rewrite lookup_insert. case_decide; cbn [default].
  - subst d. reflexivity.
  - lia.
Qed.

Lemma submissions_by_date_fold (subs : list Submission) (b : buckets)
  (d : Z) :
  d ∈ last_7_days today ->
  default 0 (submissions_by_date (fold_left (bucket_step today) subs b) !! d)
  = default 0 (submissions_by_date b !! d)
    + Z.of_nat (length (Spec.on_day d subs)).
Proof.
  intros Hd. revert b. induction subs as [|s subs IH]; intros b.
  - cbn. lia.
  - cbn [fold_left]. rewrite IH. unfold bucket_step.
    unfold Spec.on_day. cbn [List.filter].
    destruct (Z.eqb_spec (date (created_at s)) d) as [->|Hne].
    + rewrite decide_True by assumption.
      cbn [submissions_by_date]. rewrite incr_lookup.
      rewrite decide_True by reflexivity. cbn [length]. lia.
    + case_decide; [|reflexivity].
      cbn [submissions_by_date]. rewrite incr_lookup.
      rewrite decide_False by assumption. lia.
Qed.

Lemma pending_by_date_fold (subs : list Submission) (b : buckets) (d : Z) :
  d ∈ last_7_days today ->
  default 0 (pending_by_date (fold_left (bucket_step today) subs b) !! d)
  = default 0 (pending_by_date b !! d)
    + Z.of_nat (length (Spec.pending_on d subs)).
Proof.
  intros Hd. revert b. induction subs as [|s subs IH]; intros b.
  - cbn. lia.
  - cbn [fold_left]. rewrite IH. unfold bucket_step.
    unfold Spec.pending_on, Spec.on_day. cbn [List.filter].
    destruct (Z.eqb_spec (date (created_at s)) d) as [->|Hne].
    + rewrite decide_True by assumption.
      cbn [pending_by_date List.filter].
      destruct (negb (graded s)); cbn [length].
      * rewrite incr_lookup, decide_True by reflexivity. lia.
      * lia.
    + case_decide; [|reflexivity].
      cbn [pending_by_date]. destruct (negb (graded s)); [|reflexivity].
      rewrite incr_lookup, decide_False by assumption. lia.
Qed.

Lemma avg_score_by_date_fold (subs : list Submission) (b : buckets) (d : Z) :
  d ∈ last_7_days today ->
  default [] (avg_score_by_date (fold_left (bucket_step today) subs b) !! d)
  = default [] (avg_score_by_date b !! d)
    ++ map Spec.stored_score (Spec.graded_on d subs).
Proof.
  intros Hd. revert b. induction subs as [|s subs IH]; intros b.
  - cbn. now rewrite app_nil_r.
  - cbn [fold_left]. rewrite IH. unfold bucket_step.
    unfold Spec.graded_on, Spec.on_day. cbn [List.filter].
    destruct (Z.eqb_spec (date (created_at s)) d) as [->|Hne].
    + rewrite decide_True by assumption.
      cbn [avg_score_by_date List.filter]. unfold graded, Spec.stored_score.
      destruct (grade s) as [g|] eqn:Hg; cbn [Py.is_not_None map].
      * rewrite lookup_insert_eq. cbn [default]. rewrite Hg.
        unfold id. now rewrite <- app_assoc.
      * reflexivity.
    + case_decide; [|reflexivity].
      cbn [avg_score_by_date]. destruct (grade s); [|reflexivity].
      now rewrite lookup_insert_ne.
Qed.

Lemma active_students_by_date_fold (subs : list Submission) (b : buckets)
  (d : Z) :
  d ∈ last_7_days today ->
  default ∅
    (active_students_by_date (fold_left (bucket_step today) subs b) !! d)
  = default ∅ (active_students_by_date b !! d)
    ∪ list_to_set (map student_id (Spec.on_day d subs)).
Proof.
  intros Hd. revert b. induction subs as [|s subs IH]; intros b.
  - cbn. now rewrite union_empty_r_L.
  - cbn [fold_left]. rewrite IH. unfold bucket_step.
    unfold Spec.on_day. cbn [List.filter].
    destruct (Z.eqb_spec (date (created_at s)) d) as [->|Hne].
    + rewrite decide_True by assumption.
      cbn [active_students_by_date map list_to_set].
      rewrite lookup_insert_eq. cbn [default]. now rewrite (assoc_L (∪)).
    + case_decide; [|reflexivity].
      cbn [active_students_by_date]. now rewrite lookup_insert_ne.
Qed.

End Buckets.

Lemma sum_from_some (vs : list Q) (acc : Q) :
  Py.sum_from acc (map Some vs) = Py.Ok (fold_left Qplus vs acc).
Proof.
  revert acc. induction vs as [|v vs IH]; intros acc; [reflexivity|].
  cbn [map Py.sum_from Py.add Py.bind fold_left]. apply IH.
Qed.

Lemma scores_of_scored (subs : list Submission) :
  (forall s, s ∈ subs -> graded s = true) ->
  (forall s g, s ∈ subs -> grade s = Some g -> is_Some (score g)) ->
  exists vs, Spec.scores_of subs = Some vs
             /\ map Spec.stored_score subs = map Some vs.
Proof.
  induction subs as [|s subs IH]; intros Hg Hsc.
  - exists []. auto.
  - destruct IH as (vs & Hvs & Hmap).
    { intros s' Hs'. now apply Hg, list_elem_of_further. }
    { intros s' g Hs'. now apply Hsc, list_elem_of_further. }
    pose proof (Hg s (list_elem_of_here _ _)) as Hs.
    unfold graded in Hs. destruct (grade s) as [g|] eqn:Hgs; [|discriminate].
    destruct (Hsc s g (list_elem_of_here _ _) Hgs) as [v Hv].
    exists (v :: vs). cbn [Spec.scores_of map]. unfold Spec.stored_score at 1.
    rewrite Hgs, Hvs, Hmap. destruct g as [sc pr fl]. cbn in Hv. subst sc.
    auto.
Qed.

Lemma day_average_scored (m : gmap Z (list (option Q))) (d : Z)
  (vs : list Q) :
  default [] (m !! d) = map Some vs ->
  Instructor.day_average m d = Py.Ok (Spec.average vs).
Proof.
  intros Hl. unfold Instructor.day_average. rewrite Hl.
  destruct vs as [|v vs]; [reflexivity|].
  change (map Some (v :: vs)) with (Some v :: map Some vs).
  cbv beta iota. unfold Py.sum.
  change (Some v :: map Some vs) with (map Some (v :: vs)).
  rewrite sum_from_some. cbn [Py.bind].
  change (map Some (v :: vs)) with (Some v :: map Some vs).
  rewrite truediv_len. cbn [Py.bind].
  unfold Spec.average, Spec.mean, Py.sum_num, Py.len. cbn [length].
  now rewrite length_map.
Qed.

Lemma comprehension_ok {A B : Type} (f : A -> Py.result B) (g : A -> B)
  (l : list A) :
  (forall x, x ∈ l -> f x = Py.Ok (g x)) ->
  Instructor.comprehension f l = Py.Ok (map g l).
Proof.
  induction l as [|x l IH]; intros Hf; [reflexivity|].
  cbn [Instructor.comprehension map].
  rewrite (Hf x) by apply list_elem_of_here. cbn [Py.bind].
  rewrite IH; [reflexivity|]. intros y Hy. now apply Hf, list_elem_of_further.
Qed.

(** When each grade of the class holds a score the sparkline is returned,
    for every reference day, as four arrays of length 7; slot [i] of each
    array is about the day [today - 6 + i] (oldest first) and holds,
    respectively, the number of submissions of that day, the number of
    those still ungraded, the mean of that day's graded scores rounded to
    one decimal (0.0 when none), and the number of distinct students who
    submitted that day. *)
Lemma sparkline_last_seven_days (today : Z) (all_subs : list Submission)
  (Hscored : Spec.every_grade_scored all_subs = true) :
  exists sd : Instructor.sparkline_data,
    Instructor.sparkline today all_subs = Py.Ok sd
    /\ length (Instructor.submissions sd) = 7%nat
    /\ length (Instructor.pending sd) = 7%nat
    /\ length (Instructor.class_avg sd) = 7%nat
    /\ length (Instructor.active_students sd) = 7%nat
    /\ forall i : nat, (i < 7)%nat ->
         let d := today - 6 + Z.of_nat i in
         Instructor.submissions sd !! i
         = Some (Z.of_nat (length (Spec.on_day d all_subs)))
         /\ Instructor.pending sd !! i
            = Some (Z.of_nat (length (Spec.pending_on d all_subs)))
         /\ (exists vs : list Q,
               Spec.scores_of (Spec.graded_on d all_subs) = Some vs
               /\ Instructor.class_avg sd !! i = Some (Spec.average vs))
         /\ Instructor.active_students sd !! i
            = Some (Z.of_nat (length (Spec.students_on d all_subs))).
Proof.
  set (avg := fun d =>
    match Spec.scores_of (Spec.graded_on d all_subs) with
    | Some vs => Spec.average vs
    | None => 0%Q
    end).
  assert (Hvs : forall d, exists vs,
    Spec.scores_of (Spec.graded_on d all_subs) = Some vs
    /\ map Spec.stored_score (Spec.graded_on d all_subs) = map Some vs).
  { intros d. apply scores_of_scored.
    - intros s. apply filter_graded_graded.
    - intros s g Hs Hg. unfold Spec.every_grade_scored in Hscored.
      rewrite forallb_forall in Hscored. specialize (Hscored s).
      rewrite Hg in Hscored.
      unfold Spec.graded_on, Spec.on_day in Hs.
      rewrite list_elem_of_In, !filter_In in Hs.
      destruct (score g) as [v|]; [now exists v|].
      discriminate Hscored. tauto. }
  assert (Havg : forall d, d ∈ Instructor.last_7_days today ->
    Instructor.day_average
      (Instructor.avg_score_by_date (Instructor.fill_buckets today all_subs))
      d = Py.Ok (avg d)).
  { intros d Hd. destruct (Hvs d) as (vs & Hsc & Hmap). unfold avg.
    rewrite Hsc. apply day_average_scored. unfold Instructor.fill_buckets.
    rewrite avg_score_by_date_fold by assumption.
    cbn [Instructor.empty_buckets Instructor.avg_score_by_date].
    rewrite lookup_empty. exact Hmap. }
  eexists. split.
  { unfold Instructor.sparkline.
    rewrite (comprehension_ok _ avg _ Havg). cbn [Py.bind]. reflexivity. }
  cbn [Instructor.submissions Instructor.pending Instructor.class_avg
       Instructor.active_students].
  split; [reflexivity|]. split; [reflexivity|]. split; [reflexivity|].
  split; [reflexivity|].
  intros i Hi. rewrite !lookup_map, last_7_days_lookup by assumption.
  set (d := today - 6 + Z.of_nat i). cbn [fmap option_fmap option_map].
  pose proof (elem_of_last_7_days today i Hi) as Hd. fold d in Hd.
  unfold Instructor.fill_buckets. repeat split.
  - rewrite submissions_by_date_fold by assumption.
    cbn [Instructor.empty_buckets Instructor.submissions_by_date].
    rewrite lookup_empty. reflexivity.
  - rewrite pending_by_date_fold by assumption.
    cbn [Instructor.empty_buckets Instructor.pending_by_date].
    rewrite lookup_empty. reflexivity.
  - destruct (Hvs d) as (vs & Hsc & _). exists vs. split; [exact Hsc|].
    unfold avg. now rewrite Hsc.
  - rewrite active_students_by_date_fold by assumption.
    cbn [Instructor.empty_buckets Instructor.active_students_by_date].
    rewrite lookup_empty. cbn [default]. rewrite union_empty_l_L.
    do 2 f_equal. unfold Spec.students_on. apply size_of_days.
    intros x. apply elem_of_list_to_set.
Qed.

(** ** The theorems at sample inputs *)

Lemma insights_ignore_zero_scores_witness :
  let A := area_scores 70 90 0 0 in
  let r := insights 70 90 0 0 in
  (0 <= 70)%Q /\ (0 <= 90)%Q /\ (0 <= 0)%Q
  /\ (strongest_area r, strongest_score r) ∈ A
  /\ ~ strongest_score r == 0
  /\ (weakest_area r, weakest_score r) ∈ A
  /\ ~ weakest_score r == 0.
Proof.
  intros A r.
  assert (H70 : (0 <= 70)%Q) by (unfold Qle; cbn; lia).
  assert (H90 : (0 <= 90)%Q) by (unfold Qle; cbn; lia).
  assert (H0 : (0 <= 0)%Q) by (unfold Qle; cbn; lia).
  destruct (insights_ignore_zero_scores 70 90 0 0 H70 H90 H0 H0)
    as [_ Hsome].
  destruct Hsome as (Hs & Hsn & Hw & Hwn & _).
  { exists ("Speaking"%string, 70%Q). split; [apply list_elem_of_here|].
    cbn. discriminate. }
  repeat split; assumption.
Defined.

Lemma insights_tie_break_witness :
  let r := insights 50 60 95 95 in
  (exists kv, kv ∈ area_scores 50 60 95 95 /\ (0 < snd kv)%Q)
  /\ (strongest_area r, strongest_score r) = ("Quiz"%string, 95%Q)
  /\ (weakest_area r, weakest_score r) = ("Speaking"%string, 50%Q).
Proof.
  intros r.
  assert (Hsome : exists kv, kv ∈ area_scores 50 60 95 95 /\ (0 < snd kv)%Q).
  { exists ("Speaking"%string, 50%Q). split; [apply list_elem_of_here|].
    reflexivity. }
  split; [exact Hsome|].
  destruct (insights_tie_break 50 60 95 95 Hsome)
    as (_ & _ & _ & Hstrong & Hweak).
  assert (Hle : forall kv', kv' ∈ area_scores 50 60 95 95 ->
                  (50 <= snd kv' <= 95)%Q).
  { intros kv' Hkv'. unfold area_scores in Hkv'.
    repeat (apply elem_of_cons in Hkv' as [->|Hkv']);
      [| | | |now apply elem_of_nil in Hkv'];
      cbn [snd]; split; unfold Qle; cbn; lia. }
  split.
  - apply (Hstrong 2%nat); [reflexivity|reflexivity| |].
    + intros kv' Hkv' _. apply (Hle kv' Hkv').
    + intros [|[|j]] kv' Hj Hkv'; [| |lia];
        cbn in Hkv'; injection Hkv' as <-; cbn [snd]; discriminate.
  - apply (Hweak 0%nat); [reflexivity|reflexivity| |].
    + intros kv' Hkv' _. apply (Hle kv' Hkv').
    + intros j kv' Hj. lia.
Defined.

Lemma sparkline_last_seven_days_witness :
  let rows := [Examples.scored "WRITING" 10 80;
               Examples.ungraded "SPEAKING" 10;
               Examples.scored "WRITING" 9 71] in
  Spec.every_grade_scored rows = true
  /\ exists sd : Instructor.sparkline_data,
       Instructor.sparkline 10 rows = Py.Ok sd
       /\ Instructor.submissions sd = [0; 0; 0; 0; 0; 1; 2]
       /\ Instructor.pending sd = [0; 0; 0; 0; 0; 0; 1]
       /\ Instructor.class_avg sd = [0; 0; 0; 0; 0; 71; 80]%Q
       /\ Instructor.active_students sd = [0; 0; 0; 0; 0; 1; 1].
Proof.
  intros rows. split; [reflexivity|].
  destruct (sparkline_last_seven_days 10 rows eq_refl) as (sd & Hsd & _).
  exists sd. split; [exact Hsd|].
  vm_compute in Hsd. injection Hsd as <-. repeat split.
Defined.

Lemma zero_subscore_average_and_chart_witness :
  (0 == 0 \/ 80 == 0)
  /\ speaking_score (speaking_subs [Examples.spoken 1 0 80]) = Py.Ok 0%Q
  /\ speaking_event (Examples.spoken 1 0 80)
     = Some (1, ((0 + 80) / 2)%Q).
Proof.
  split; [left; reflexivity|].
  destruct (zero_subscore_average_and_chart (fun _ => "-"%string)
              (Examples.spoken 1 0 80) _ 0 80 eq_refl eq_refl eq_refl
              eq_refl (or_introl (Qeq_refl 0)))
    as (_ & Havg & Hevent & _).
  exact (conj Havg Hevent).
Defined.

(** ** Ranges of the rounded averages *)

Lemma round_half_even_ge (x : Q) (n : Z) :
  (inject_Z n <= x)%Q -> n <= Py.round_half_even x.
Proof.
  intros Hn. unfold Py.round_half_even.
  assert (Hf : n <= Qfloor x).
  { rewrite <- (Qfloor_Z n). now apply Qfloor_resp_le. }
  destruct (_ ?= _)%Q; [destruct (Z.even _)| |]; lia.
Qed.

Lemma round_half_even_le (x : Q) (n : Z) :
  (x <= inject_Z n)%Q -> Py.round_half_even x <= n.
Proof.
  intros Hn. unfold Py.round_half_even.
  pose proof (Qfloor_le x) as Hlo.
  assert (Hf : Qfloor x <= n).
  { rewrite <- (Qfloor_Z n). now apply Qfloor_resp_le. }
  set (f := Qfloor x) in *.
  assert (Hstep : (inject_Z f < x)%Q -> f + 1 <= n).
  { intros Hlt. assert (inject_Z f < inject_Z n)%Q by lra.
    rewrite <- Zlt_Qlt in H. lia. }
  destruct (Qcompare_spec (x - inject_Z f) (1 # 2)) as [Heq|Hlt|Hgt].
  - destruct (Z.even f); [lia|]. apply Hstep. lra.
  - lia.
  - apply Hstep. lra.
Qed.

Lemma round1_in_range (x : Q) :
  (0 <= x <= 100)%Q -> (0 <= Py.round1 x <= 100)%Q.
Proof.
  intros [Hlo Hhi]. rewrite round1_value.
  pose proof (round_half_even_ge (x * 10) 0) as Hge.
  pose proof (round_half_even_le (x * 10) 1000) as Hle.
  change (inject_Z 0) with 0%Q in Hge.
  change (inject_Z 1000) with 1000%Q in Hle.
  assert (H0 : 0 <= Py.round_half_even (x * 10)) by (apply Hge; lra).
  assert (H1 : Py.round_half_even (x * 10) <= 1000) by (apply Hle; lra).
  rewrite Zle_Qle in H0, H1.
  change (inject_Z 0) with 0%Q in H0.
  change (inject_Z 1000) with 1000%Q in H1.
  unfold Qdiv. change (/ 10)%Q with (1 # 10)%Q.
  set (k := inject_Z (Py.round_half_even (x * 10))) in *.
  split; lra.
Qed.

Lemma len_cons {A : Type} (x : A) (l : list A) :
  Py.len (x :: l) == Py.len l + 1.
Proof.
  unfold Py.len. cbn [length]. rewrite Nat2Z.inj_succ, <- Z.add_1_r.
  rewrite inject_Z_plus. reflexivity.
Qed.

Lemma fold_Qplus_bounds (a b : Q) (l : list Q) (acc : Q) :
  Forall (fun v => a <= v <= b)%Q l ->
  (acc + Py.len l * a <= fold_left Qplus l acc <= acc + Py.len l * b)%Q.
Proof.
  intros Hl. revert acc. induction Hl as [|v l [Hva Hvb] _ IH]; intros acc.
  - unfold Py.len. cbn [length fold_left].
    change (inject_Z (Z.of_nat 0)) with 0%Q. split; lra.
  - cbn [fold_left]. specialize (IH (acc + v)%Q).
    rewrite len_cons. set (n := Py.len l) in *.
    set (t := fold_left Qplus l (acc + v)%Q) in *.
    destruct IH as [IH1 IH2]. split; lra.
Qed.

Lemma average_in_range (l : list Q) :
  Forall (fun v => 0 <= v <= 100)%Q l ->
  (0 <= Spec.average l <= 100)%Q.
Proof.
  intros Hl. destruct l as [|v l]; [cbn; lra|].
  unfold Spec.average. apply round1_in_range. unfold Spec.mean, Py.sum_num.
  pose proof (fold_Qplus_bounds 0 100 (v :: l) 0 Hl) as [Hlo Hhi].
  assert (Hpos : (0 < Py.len (v :: l))%Q).
  { rewrite len_cons. unfold Py.len.
    assert (0 <= inject_Z (Z.of_nat (length l)))%Q.
    { change 0%Q with (inject_Z 0). rewrite <- Zle_Qle. lia. }
    lra. }
  split.
  - apply Qle_shift_div_l; [exact Hpos|]. lra.
  - apply Qle_shift_div_r; [exact Hpos|]. lra.
Qed.

Lemma in_range_spec (v : Q) :
  Props.in_range v = true <-> (0 <= v <= 100)%Q.
Proof.
  unfold Props.in_range. rewrite andb_true_iff, !Qle_bool_iff. reflexivity.
Qed.

Lemma scores_in_range_filter (f : Submission -> bool)
  (subs : list Submission) :
  Props.scores_in_range subs = true ->
  Props.scores_in_range (List.filter f subs) = true.
Proof.
  unfold Props.scores_in_range. rewrite !forallb_forall.
  intros H s Hs. apply H. now apply filter_In in Hs.
Qed.

Lemma speaking_values_in_range (subs : list Submission) :
  Props.scores_in_range subs = true ->
  Forall (fun v => 0 <= v <= 100)%Q (Spec.speaking_values subs).
Proof.
  induction subs as [|s subs IH]; intros H; [constructor|].
  cbn [Props.scores_in_range forallb] in H.
  apply andb_true_iff in H as [Hs Hrest]. specialize (IH Hrest).
  cbn [Spec.speaking_values].
  destruct (grade s) as [[sc [p|] [f|]]|]; try exact IH.
  destruct (Py.truthy (Some p) && Py.truthy (Some f)); [|exact IH].
  constructor; [|exact IH].
  cbn [score pronunciation_score fluency_score Props.opt_in_range] in Hs.
  apply andb_true_iff in Hs as [Hs Hf]. apply andb_true_iff in Hs as [_ Hp].
  apply in_range_spec in Hp, Hf.
  split.
  - apply Qle_shift_div_l; lra.
  - apply Qle_shift_div_r; lra.
Qed.

Lemma scores_of_in_range (subs : list Submission) (vs : list Q) :
  Props.scores_in_range subs = true ->
  Spec.scores_of subs = Some vs ->
  Forall (fun v => 0 <= v <= 100)%Q vs.
Proof.
  revert vs. induction subs as [|s subs IH]; intros vs H Hvs.
  - injection Hvs as <-. constructor.
  - cbn [Props.scores_in_range forallb] in H.
    apply andb_true_iff in H as [Hs Hrest].
    cbn [Spec.scores_of] in Hvs.
    destruct (grade s) as [[[v|] p f]|]; try discriminate.
    destruct (Spec.scores_of subs) as [vs'|]; [|discriminate].
    injection Hvs as <-. constructor; [|now apply IH].
    cbn [score Props.opt_in_range] in Hs.
    apply andb_true_iff in Hs as [Hs _]. apply andb_true_iff in Hs as [Hv _].
    now apply in_range_spec.
Qed.

Lemma average_of_scores_in_range (subs : list Submission) (avg : Q) :
  (forall s, s ∈ subs -> graded s = true) ->
  Props.scores_in_range subs = true ->
  average_of_scores subs = Py.Ok avg ->
  (0 <= avg <= 100)%Q.
Proof.
  intros Hg Hr. rewrite average_of_scores_spec by assumption.
  destruct (Spec.scores_of subs) as [vs|] eqn:Hvs; [|discriminate].
  intros [= <-]. apply average_in_range. eapply scores_of_in_range; eauto.
Qed.

Lemma quiz_scores_list_in_range (all_quizzes : list Quiz) :
  Props.quiz_scores_in_range all_quizzes = true ->
  Forall (fun v => 0 <= v <= 100)%Q (omap quiz_score all_quizzes).
Proof.
  induction all_quizzes as [|q l IH]; intros H; [constructor|].
  cbn [Props.quiz_scores_in_range forallb] in H.
  apply andb_true_iff in H as [Hq Hrest]. specialize (IH Hrest).
  cbn [omap list_omap]. destruct (quiz_score q) as [v|]; [|exact IH].
  constructor; [|exact IH]. now apply in_range_spec.
Qed.

(** X2. When every stored score and sub-score lies in [0, 100], so does
    every average of the dashboard: the speaking and quiz averages, which
    always return, and the writing, handwritten and overall averages
    whenever they return. *)
Theorem averages_in_range (submissions : list Submission)
  (all_quizzes : list Quiz)
  (Hsubs : Props.scores_in_range submissions = true)
  (Hquiz : Props.quiz_scores_in_range all_quizzes = true) :
  (exists avg : Q,
     speaking_score (speaking_subs submissions) = Py.Ok avg
     /\ (0 <= avg <= 100)%Q)
  /\ (exists avg : Q,
        quiz_score_of all_quizzes = Py.Ok avg /\ (0 <= avg <= 100)%Q)
  /\ (forall avg : Q,
        writing_score (writing_subs submissions) = Py.Ok avg ->
        (0 <= avg <= 100)%Q)
  /\ (forall avg : Q,
        handwritten_score (handwritten_subs submissions) = Py.Ok avg ->
        (0 <= avg <= 100)%Q)
  /\ (forall avg : Q,
        avg_score submissions = Py.Ok avg -> (0 <= avg <= 100)%Q).
Proof.
  split; [|split; [|split; [|split]]].
  - eexists. split; [apply speaking_score_spec|].
    apply average_in_range, speaking_values_in_range.
    now apply scores_in_range_filter.
  - eexists. split; [apply quiz_score_of_spec|].
    now apply average_in_range, quiz_scores_list_in_range.
  - intros avg. apply average_of_scores_in_range.
    + intros s. apply graded_of_type_graded.
    + now apply scores_in_range_filter.
  - intros avg. apply average_of_scores_in_range.
    + intros s. apply graded_of_type_graded.
    + now apply scores_in_range_filter.
  - intros avg. apply average_of_scores_in_range.
    + intros s. apply filter_graded_graded.
    + now apply scores_in_range_filter.
Qed.

Lemma speaking_events_in_range (subs : list Submission) :
  Props.scores_in_range subs = true ->
  Forall (fun v => 0 <= v <= 100)%Q (map snd (omap speaking_event subs)).
Proof.
  induction subs as [|s subs IH]; intros H; [constructor|].
  cbn [Props.scores_in_range forallb] in H.
  apply andb_true_iff in H as [Hs Hrest]. specialize (IH Hrest).
  cbn [omap list_omap]. unfold speaking_event at 1.
  destruct (grade s) as [[sc [p|] [f|]]|];
    cbn [pronunciation_score fluency_score]; try exact IH.
  cbn [map snd]. constructor; [|exact IH].
  cbn [score pronunciation_score fluency_score Props.opt_in_range] in Hs.
  apply andb_true_iff in Hs as [Hs Hf]. apply andb_true_iff in Hs as [_ Hp].
  apply in_range_spec in Hp, Hf.
  split.
  - apply Qle_shift_div_l; lra.
  - apply Qle_shift_div_r; lra.
Qed.

Lemma score_events_in_range (subs : list Submission) :
  Props.scores_in_range subs = true ->
  Forall (fun v => 0 <= v <= 100)%Q (map snd (omap score_event subs)).
Proof.
  induction subs as [|s subs IH]; intros H; [constructor|].
  cbn [Props.scores_in_range forallb] in H.
  apply andb_true_iff in H as [Hs Hrest]. specialize (IH Hrest).
  cbn [omap list_omap]. unfold score_event at 1.
  destruct (grade s) as [[[v|] p f]|]; cbn [score]; try exact IH.
  cbn [map snd]. constructor; [|exact IH].
  cbn [score Props.opt_in_range] in Hs.
  apply andb_true_iff in Hs as [Hs _]. apply andb_true_iff in Hs as [Hv _].
  now apply in_range_spec.
Qed.

Lemma quiz_events_in_range (all_quizzes : list Quiz) :
  Props.quiz_scores_in_range all_quizzes = true ->
  Forall (fun v => 0 <= v <= 100)%Q (map snd (omap quiz_event all_quizzes)).
Proof.
  induction all_quizzes as [|q l IH]; intros H; [constructor|].
  cbn [Props.quiz_scores_in_range forallb] in H.
  apply andb_true_iff in H as [Hq Hrest]. specialize (IH Hrest).
  cbn [omap list_omap]. unfold quiz_event at 1.
  destruct (date_taken q) as [t|]; [|exact IH].
  destruct (quiz_score q) as [v|]; [|exact IH].
  cbn [map snd]. constructor; [|exact IH]. now apply in_range_spec.
Qed.

Lemma slot_in_range (events : list (Z * Q)) (d : Z) :
  Forall (fun v => 0 <= v <= 100)%Q (map snd events) ->
  (0 <= Spec.slot events d <= 100)%Q.
Proof.
  intros H. unfold Spec.slot. apply average_in_range.
  unfold Spec.values_on. rewrite Forall_forall in H |- *.
  intros v Hv. apply H. rewrite list_elem_of_In in Hv |- *.
  apply in_map_iff in Hv as (e & <- & He). apply in_map.
  now apply filter_In in He.
Qed.

Lemma slots_in_range (events : list (Z * Q)) (axis : list Z) :
  Forall (fun v => 0 <= v <= 100)%Q (map snd events) ->
  Forall (fun v => 0 <= v <= 100)%Q (map (Spec.slot events) axis).
Proof.
  intros H. apply Forall_forall. intros v Hv.
  rewrite list_elem_of_In in Hv. apply in_map_iff in Hv as (d & <- & _).
  now apply slot_in_range.
Qed.

(** X3. When every stored score and sub-score lies in [0, 100], the chart
    is returned and every value of its four series lies in [0, 100]. *)
Theorem chart_values_in_range (strftime_d_b : Z -> string)
  (submissions : list Submission) (all_quizzes : list Quiz)
  (Hsubs : Props.scores_in_range submissions = true)
  (Hquiz : Props.quiz_scores_in_range all_quizzes = true) :
  exists chart : chart_data,
    chart_of strftime_d_b submissions all_quizzes = Py.Ok chart
    /\ Forall (fun v => 0 <= v <= 100)%Q (speaking_scores chart)
    /\ Forall (fun v => 0 <= v <= 100)%Q (writing_scores chart)
    /\ Forall (fun v => 0 <= v <= 100)%Q (quiz_scores chart)
    /\ Forall (fun v => 0 <= v <= 100)%Q (handwritten_scores chart).
Proof.
  eexists. split.
  { unfold chart_of, build_chart. apply chart_loop_spec. }
  cbn [speaking_scores writing_scores quiz_scores handwritten_scores app].
  repeat split; apply slots_in_range.
  - apply speaking_events_in_range. now apply scores_in_range_filter.
  - apply score_events_in_range. now apply scores_in_range_filter.
  - now apply quiz_events_in_range.
  - apply score_events_in_range. now apply scores_in_range_filter.
Qed.

(** ** Recent submissions *)

(** X1. The recent submissions are the last [min(10, n)] of the [n]
    submissions, in their order; the chart flag is set exactly when there
    is a submission, whatever the quizzes and the grades are. *)
Theorem recent_submissions_suffix (submissions : list Submission) :
  (exists older : list Submission,
     submissions = older ++ Views.recent_submissions submissions)
  /\ length (Views.recent_submissions submissions)
     = Nat.min 10 (length submissions)
  /\ (Views.has_chart_data submissions = true <-> submissions <> []).
Proof.
  assert (Hlen : length (Views.recent_submissions submissions)
                 = Nat.min 10 (length submissions)).
  { unfold Views.recent_submissions.
    destruct (Nat.ltb_spec 10 (length submissions)).
    - rewrite length_drop. lia.
    - lia. }
  split; [|split; [exact Hlen|]].
  - unfold Views.recent_submissions.
    destruct (Nat.ltb_spec 10 (length submissions)).
    + exists (take (length submissions - 10) submissions).
      symmetry. apply take_drop.
    + now exists [].
  - unfold Views.has_chart_data. rewrite Hlen, Nat.ltb_lt.
    destruct submissions; cbn [length]; split; try congruence; lia.
Qed.

(** ** More on the streak *)

Lemma current_streak_run (submissions : list Submission) (today : Z) :
  exists n, 0 <= n
    /\ current_streak submissions today = Some n
    /\ (forall i, 0 <= i < n -> today - i ∈ submission_dates submissions)
    /\ today - n ∉ submission_dates submissions.
Proof.
  destruct submissions as [|s l].
  - exists 0. repeat split; [lia|lia|].
    rewrite elem_of_submission_dates. intros (s & Hs & _).
    now apply elem_of_nil in Hs.
  - unfold current_streak.
    destruct (streak_loop_spec (S (size (submission_dates (s :: l))))
                (submission_dates (s :: l)) 0 today)
      as (k & Hk & Hrun & Hall & Hstop).
    { apply Nat.lt_succ_r, subseteq_size. intros x.
      rewrite elem_of_filter. tauto. }
    exists k. rewrite Z.add_0_l in Hrun. auto.
Qed.

(** A list that holds [n] consecutive days has at least [n] items. *)
Lemma run_length (l : list Z) (today n : Z) :
  0 <= n -> (forall i, 0 <= i < n -> In (today - i) l) ->
  n <= Z.of_nat (length l).
Proof.
  intros Hn Hrun.
  set (days := map (fun i => today - Z.of_nat i) (seq 0 (Z.to_nat n))).
  assert (Hnd : List.NoDup days).
  { unfold days. apply Finite.Injective_map_NoDup; [|apply seq_NoDup].
    intros i j Hij. lia. }
  assert (Hincl : incl days l).
  { intros d Hd. unfold days in Hd. apply in_map_iff in Hd as (i & <- & Hi).
    apply in_seq in Hi. apply Hrun. lia. }
  pose proof (NoDup_incl_length Hnd Hincl) as Hlen.
  unfold days in Hlen. rewrite length_map, length_seq in Hlen. lia.
Qed.

(** X4. Adding submissions never shortens the streak; the streak is at
    most the number of submissions; it is positive exactly when a
    submission is dated [today]. *)
Theorem streak_grows_with_submissions (submissions extra : list Submission)
  (today : Z) :
  exists n n' : Z,
    current_streak submissions today = Some n
    /\ current_streak (submissions ++ extra) today = Some n'
    /\ 0 <= n <= n'
    /\ n <= Z.of_nat (length submissions)
    /\ (0 < n <->
        exists s, s ∈ submissions /\ date (created_at s) = today).
Proof.
  destruct (current_streak_run submissions today)
    as (n & Hn & Hrun & Hall & Hstop).
  destruct (current_streak_run (submissions ++ extra) today)
    as (n' & Hn' & Hrun' & Hall' & Hstop').
  exists n, n'. split; [exact Hrun|]. split; [exact Hrun'|].
  split; [|split].
  - split; [exact Hn|].
    destruct (Z_le_gt_dec n n') as [|Hgt]; [assumption|]. exfalso.
    apply Hstop'. apply elem_of_submission_dates.
    destruct (proj1 (elem_of_submission_dates submissions (today - n')))
      as (s & Hs & Hd); [apply Hall; lia|].
    exists s. split; [|exact Hd]. apply elem_of_app. now left.
  - apply (run_length (map (fun s => date (created_at s)) submissions) today)
      in Hn as Hlen.
    + now rewrite length_map in Hlen.
    + intros i Hi. apply Hall, elem_of_submission_dates in Hi
        as (s & Hs & Hd).
      apply in_map_iff. exists s. split; [exact Hd|].
      now apply list_elem_of_In.
  - rewrite <- elem_of_submission_dates. split.
    + intros Hpos. replace today with (today - 0) by lia. apply Hall. lia.
    + intros Hin. destruct (Z_le_gt_dec n 0) as [Hle|]; [|lia].
      exfalso. assert (n = 0) as -> by lia.
      apply Hstop. now rewrite Z.sub_0_r.
Qed.

(** ** More on the weekly goal *)

Lemma goal_percentage_of_five (current : Z) :
  0 <= current ->
  goal_percentage current weekly_goal_target
  = Py.Ok (Z.min 100 (20 * current)).
Proof.
  intros Hc. rewrite goal_percentage_spec by assumption.
  unfold weekly_goal_target. cbn [Z.ltb Z.compare]. do 2 f_equal.
  unfold Qfloor, Qdiv, Qmult, Qinv, inject_Z. cbn.
  replace (current * 1 * 100) with (20 * current * 5) by lia.
  apply Z.div_mul. lia.
Qed.

Lemma goal_percentage_returns (current target : Z) :
  Py.returns (goal_percentage current target).
Proof.
  unfold goal_percentage. destruct (Z.ltb_spec 0 target) as [Ht|Ht]; [|exact I].
  unfold Py.truediv.
  assert (Qeq_bool (inject_Z target) 0 = false) as ->.
  { unfold Qeq_bool, inject_Z. cbn [Qnum Qden]. apply Z.eqb_neq. lia. }
  exact I.
Qed.

(** X5. The weekly goal is always returned, with the percentage
    [min(100, 20 * current)] between 0 and 100 and between 0 and 5
    submissions remaining; nothing remains exactly when the percentage is
    100, that is when at least five submissions are counted. The
    percentage never divides by zero, whatever the target. *)
Theorem weekly_goal_bounds (submissions : list Submission) (today : Z) :
  (exists g : weekly_goal,
     weekly_goal_of submissions today = Py.Ok g
     /\ 0 <= weekly_goal_current g <= Z.of_nat (length submissions)
     /\ weekly_goal_percentage g = Z.min 100 (20 * weekly_goal_current g)
     /\ 0 <= weekly_goal_percentage g <= 100
     /\ 0 <= weekly_goal_remaining g <= 5
     /\ (weekly_goal_remaining g = 0 <-> weekly_goal_percentage g = 100)
     /\ (weekly_goal_remaining g = 0 <-> 5 <= weekly_goal_current g))
  /\ forall current target : Z, Py.returns (goal_percentage current target).
Proof.
  split; [|apply goal_percentage_returns].
  unfold weekly_goal_of.
  set (current := Z.of_nat (length (weekly_submissions submissions today))).
  assert (Hc : 0 <= current <= Z.of_nat (length submissions)).
  { unfold current, weekly_submissions. split; [lia|].
    apply Nat2Z.inj_le, filter_length_le. }
  rewrite goal_percentage_of_five by lia. cbn [Py.bind].
  eexists. split; [reflexivity|].
  cbn [weekly_goal_current weekly_goal_percentage weekly_goal_remaining].
  unfold goal_remaining, weekly_goal_target. lia.
Qed.

(** X6. The streak and the weekly count fit together: the days of the
    streak that fall in the current week, [min(streak, weekday + 1)] of
    them, each bring at least one submission to the weekly count. *)
Theorem streak_within_weekly_goal (submissions : list Submission)
  (today : Z) :
  exists (n : Z) (g : weekly_goal),
    current_streak submissions today = Some n
    /\ weekly_goal_of submissions today = Py.Ok g
    /\ Z.min n (weekday today + 1) <= weekly_goal_current g.
Proof.
  destruct (current_streak_run submissions today)
    as (n & Hn & Hrun & Hall & _).
  unfold weekly_goal_of.
  rewrite goal_percentage_of_five by lia. cbn [Py.bind].
  exists n. eexists. split; [exact Hrun|]. split; [reflexivity|].
  cbn [weekly_goal_current].
  pose proof (weekday_range today) as Hw.
  rewrite <- (length_map (fun s => date (created_at s))).
  apply (run_length _ today); [lia|].
  intros i Hi. destruct (proj1 (elem_of_submission_dates submissions
    (today - i))) as (s & Hs & Hd); [apply Hall; lia|].
  apply in_map_iff. exists s. split; [exact Hd|].
  unfold weekly_submissions, week_start. apply filter_In.
  split; [now apply list_elem_of_In|]. apply Z.leb_le. lia.
Qed.

(** ** More on the insights *)

Lemma filter_single {A : Type} (f : A -> bool) (l : list A) (i : nat)
  (x : A) :
  l !! i = Some x -> f x = true ->
  (forall (j : nat) y, j <> i -> l !! j = Some y -> f y = false) ->
  List.filter f l = [x].
Proof.
  revert i. induction l as [|y l IH]; intros i Hi Hx Hothers.
  - destruct i; discriminate Hi.
  - destruct i as [|i]; cbn [List.filter].
    + cbn in Hi. injection Hi as ->. rewrite Hx. f_equal.
      assert (Hnone : forall z, In z l -> f z = false).
      { intros z Hz. apply list_elem_of_In, list_elem_of_lookup in Hz
          as [j Hj].
        apply (Hothers (S j)); [lia|exact Hj]. }
      clear -Hnone. induction l as [|z l IHl]; [reflexivity|].
      cbn [List.filter]. rewrite (Hnone z) by apply in_eq.
      apply IHl. intros w Hw. apply Hnone. now right.
    + rewrite (Hothers 0%nat y) by (try lia; reflexivity).
      apply (IH i); [exact Hi|exact Hx|].
      intros j z Hj Hz. apply (Hothers (S j)); [lia|exact Hz].
Qed.

(** X7. The strongest score is never below the weakest one. When exactly
    one area has a positive score, that area is reported both as the
    strongest and as the weakest, with its score. *)
Theorem insights_strongest_above_weakest (sp wr qz hw : Q) :
  let A := area_scores sp wr qz hw in
  let r := insights sp wr qz hw in
  (weakest_score r <= strongest_score r)%Q
  /\ forall (i : nat) (kv : string * Q),
       A !! i = Some kv -> (0 < snd kv)%Q ->
       (forall (j : nat) kv', j <> i -> A !! j = Some kv' ->
          (snd kv' <= 0)%Q) ->
       r = {| strongest_area := fst kv; strongest_score := snd kv;
              weakest_area := fst kv; weakest_score := snd kv |}.
Proof.
  intros A r. split.
  - unfold r, insights, insights_of. fold A.
    destruct (non_zero_scores A) as [|first rest]; [cbn; lra|].
    cbn [strongest_score weakest_score].
    destruct (max_from_spec first rest) as (_ & _ & _ & _ & Hmax).
    destruct (min_from_spec first rest) as (_ & _ & _ & _ & Hmin).
    eapply Qle_trans; [apply Hmin|apply Hmax]; apply list_elem_of_here.
  - intros i kv Hi Hpos Hothers. unfold r, insights, insights_of. fold A.
    unfold non_zero_scores. rewrite (filter_single _ A i kv Hi).
    + reflexivity.
    + now destruct (gtb_spec (snd kv) 0).
    + intros j kv' Hj Hkv'. destruct (gtb_spec (snd kv') 0) as [Hp|];
        [|reflexivity].
      specialize (Hothers j kv' Hj Hkv'). lra.
Qed.

(** ** The headline figures of the class *)

Lemma filter_partition_length {A : Type} (f : A -> bool) (l : list A) :
  (length (List.filter f l) + length (List.filter (fun x => negb (f x)) l)
   = length l)%nat.
Proof.
  induction l as [|x l IH]; [reflexivity|].
  cbn [List.filter]. destruct (f x); cbn [negb length]; lia.
Qed.

Lemma remove_dups_length_le (l : list Z) :
  (length (remove_dups l) <= length l)%nat.
Proof.
  apply NoDup_incl_length; [apply NoDup_ListNoDup, NoDup_remove_dups|].
  intros x Hx. rewrite <- list_elem_of_In in Hx |- *.
  exact (proj1 (elem_of_remove_dups l x) Hx).
Qed.

(** X8. On the instructor dashboard the pending count is the number of
    submissions without a grade and the active count is the number of
    distinct student ids; both lie between 0 and the number of
    submissions, and the active count is 0 only when there is none. *)
Theorem class_headline_counts (all_subs : list Submission) :
  Instructor.pending_count all_subs
  = Z.of_nat (length (List.filter (fun s => negb (graded s)) all_subs))
  /\ 0 <= Instructor.pending_count all_subs <= Z.of_nat (length all_subs)
  /\ Instructor.active_count all_subs
     = Z.of_nat (length (remove_dups (map student_id all_subs)))
  /\ 0 <= Instructor.active_count all_subs <= Z.of_nat (length all_subs)
  /\ (Instructor.active_count all_subs = 0 <-> all_subs = []).
Proof.
  assert (Hp : Instructor.pending_count all_subs
    = Z.of_nat (length (List.filter (fun s => negb (graded s)) all_subs))).
  { unfold Instructor.pending_count, Instructor.graded_subs.
    pose proof (filter_partition_length graded all_subs). lia. }
  assert (Ha : Instructor.active_count all_subs
    = Z.of_nat (length (remove_dups (map student_id all_subs)))).
  { unfold Instructor.active_count. f_equal. apply size_of_days.
    intros x. apply elem_of_list_to_set. }
  split; [exact Hp|]. split; [|split; [exact Ha|split]].
  - rewrite Hp. split; [lia|]. apply Nat2Z.inj_le, filter_length_le.
  - rewrite Ha. split; [lia|]. apply Nat2Z.inj_le.
    rewrite <- (length_map student_id all_subs). apply remove_dups_length_le.
  - rewrite Ha. split.
    + intros H0. destruct all_subs as [|s l]; [reflexivity|]. exfalso.
      assert (Hin : student_id s ∈ remove_dups (map student_id (s :: l))).
      { apply elem_of_remove_dups. cbn [map]. apply list_elem_of_here. }
      destruct (remove_dups (map student_id (s :: l)));
        [now apply elem_of_nil in Hin | cbn in H0; lia].
    + intros ->. reflexivity.
Qed.

(** ** More on the sparkline *)

Lemma elem_of_last_7_days_iff (today d : Z) :
  d ∈ Instructor.last_7_days today <-> today - 6 <= d <= today.
Proof.
  unfold Instructor.last_7_days. cbn [map].
  rewrite !elem_of_cons, elem_of_nil. lia.
Qed.

Lemma in_window_spec (today : Z) (s : Submission) :
  Props.in_window today s = true
  <-> date (created_at s) ∈ Instructor.last_7_days today.
Proof.
  unfold Props.in_window.
  rewrite elem_of_last_7_days_iff, andb_true_iff, !Z.leb_le. reflexivity.
Qed.

Lemma fill_buckets_window (today : Z) (subs : list Submission)
  (b : Instructor.buckets) :
  fold_left (Instructor.bucket_step today) subs b
  = fold_left (Instructor.bucket_step today)
      (List.filter (Props.in_window today) subs) b.
Proof.
  revert b. induction subs as [|s subs IH]; intros b; [reflexivity|].
  cbn [fold_left List.filter].
  destruct (Props.in_window today s) eqn:Hw.
  - cbn [fold_left]. apply IH.
  - rewrite <- IH. f_equal. unfold Instructor.bucket_step.
    rewrite decide_False; [reflexivity|].
    intros Hin. apply in_window_spec in Hin. congruence.
Qed.

(** X9. The sparkline depends only on the submissions dated within the
    seven days ending [today]: dropping every other submission, older or
    dated after [today], leaves it unchanged. *)
Theorem sparkline_ignores_other_days (today : Z)
  (all_subs : list Submission) :
  Instructor.sparkline today all_subs
  = Instructor.sparkline today
      (List.filter (Props.in_window today) all_subs).
Proof.
  unfold Instructor.sparkline, Instructor.fill_buckets.
  now rewrite <- fill_buckets_window.
Qed.

Lemma sum_from_outcome (l : list (option Q)) (acc : Q) :
  (exists t, Py.sum_from acc l = Py.Ok t /\ forallb Py.is_not_None l = true)
  \/ (Py.sum_from acc l = Py.Raise Py.TypeError
      /\ forallb Py.is_not_None l = false).
Proof.
  revert acc. induction l as [|[v|] l IH]; intros acc.
  - left. now exists acc.
  - cbn [Py.sum_from Py.add Py.bind forallb Py.is_not_None andb]. apply IH.
  - right. split; reflexivity.
Qed.

Lemma day_average_outcome (m : gmap Z (list (option Q))) (d : Z) :
  (exists v, Instructor.day_average m d = Py.Ok v
             /\ forallb Py.is_not_None (default [] (m !! d)) = true)
  \/ (Instructor.day_average m d = Py.Raise Py.TypeError
      /\ forallb Py.is_not_None (default [] (m !! d)) = false).
Proof.
  unfold Instructor.day_average.
  destruct (default [] (m !! d)) as [|x l]; [left; now exists 0%Q|].
  unfold Py.sum.
  destruct (sum_from_outcome (x :: l) 0) as [(t & -> & Hall)|[-> Hsome]].
  - left. cbn [Py.bind]. rewrite truediv_len. cbn [Py.bind]. eauto.
  - right. split; [reflexivity|exact Hsome].
Qed.

Lemma comprehension_raises {A B : Type} (f : A -> Py.result B) (l : list A)
  (e : Py.exn) :
  (forall x, x ∈ l -> Py.returns (f x) \/ f x = Py.Raise e) ->
  (exists x, x ∈ l /\ f x = Py.Raise e) ->
  Instructor.comprehension f l = Py.Raise e.
Proof.
  induction l as [|x l IH]; intros Hall (x0 & Hx0 & Hraise).
  - now apply elem_of_nil in Hx0.
  - cbn [Instructor.comprehension].
    destruct (Hall x (list_elem_of_here _ _)) as [Hret| ->]; [|reflexivity].
    destruct (f x) as [y|e'] eqn:Hfx; [|contradiction]. cbn [Py.bind].
    rewrite IH; [reflexivity| |].
    + intros z Hz. now apply Hall, list_elem_of_further.
    + apply elem_of_cons in Hx0 as [->|Hx0]; [congruence|eauto].
Qed.

Lemma sparkline_returns_scored (today : Z) (subs : list Submission) :
  Spec.every_grade_scored subs = true ->
  exists sd, Instructor.sparkline today subs = Py.Ok sd.
Proof.
  intros Hscored. unfold Instructor.sparkline.
  rewrite (comprehension_ok _
    (fun d => match Spec.scores_of (Spec.graded_on d subs) with
              | Some vs => Spec.average vs
              | None => 0%Q
              end)).
  - cbn [Py.bind]. eauto.
  - intros d Hd.
    destruct (scores_of_scored (Spec.graded_on d subs)) as (vs & Hsc & Hmap).
    + intros s. apply filter_graded_graded.
    + intros s g Hs Hg. unfold Spec.every_grade_scored in Hscored.
      rewrite forallb_forall in Hscored. specialize (Hscored s).
      rewrite Hg in Hscored.
      unfold Spec.graded_on, Spec.on_day in Hs.
      rewrite list_elem_of_In, !filter_In in Hs.
      destruct (score g) as [v|]; [now exists v|].
      discriminate Hscored. tauto.
    + rewrite Hsc. apply day_average_scored.
      unfold Instructor.fill_buckets.
      rewrite avg_score_by_date_fold by assumption.
      cbn [Instructor.empty_buckets Instructor.avg_score_by_date].
      rewrite lookup_empty. exact Hmap.
Qed.

Lemma unscored_in_list (subs : list Submission) :
  Spec.every_grade_scored subs = false ->
  exists s g, In s subs /\ grade s = Some g /\ score g = None.
Proof.
  induction subs as [|s subs IH]; [discriminate|].
  cbn [Spec.every_grade_scored forallb]. intros H.
  apply andb_false_iff in H as [Hs|Hrest].
  - destruct (grade s) as [g|] eqn:Hg; [|discriminate].
    destruct (score g) eqn:Hsc; [discriminate|].
    exists s, g. split; [apply in_eq|auto].
  - destruct (IH Hrest) as (s' & g & Hin & Hg & Hsc).
    exists s', g. split; [now right|auto].
Qed.

(** C9. The sparkline is not returned for every class-wide record set.
    The loop appends [sub.grade.score] to the day's list for every graded
    submission of the window, without testing it against [None]: a
    speaking submission dated today and graded with its two sub-scores
    only, or a writing submission of four days ago whose grade holds no
    score, next to well-formed rows, puts [None] into a day's list, and
    summing that list raises a [TypeError] in place of the four arrays.
    So does every record set with a graded submission of the window whose
    grade holds no score. *)
Theorem sparkline_raises_on_missing_score :
  Instructor.sparkline 10 [Examples.spoken 10 80 60]
  = Py.Raise Py.TypeError
  /\ Instructor.sparkline 10
       [Examples.scored "WRITING" 5 75; Examples.unscored "WRITING" 6;
        Examples.ungraded "SPEAKING" 9; Examples.scored "WRITING" 10 90]
     = Py.Raise Py.TypeError
  /\ (forall (today : Z) (all_subs : list Submission) (s : Submission)
        (g : Grade),
        In s all_subs -> grade s = Some g -> score g = None ->
        Props.in_window today s = true ->
        Instructor.sparkline today all_subs = Py.Raise Py.TypeError).
Proof.
  split; [vm_compute; reflexivity|]. split; [vm_compute; reflexivity|].
  intros today all_subs s g Hin Hg Hsc Hwin.
  apply in_window_spec in Hwin.
  unfold Instructor.sparkline.
  rewrite (comprehension_raises _ _ Py.TypeError); [reflexivity| |].
  - intros d _.
    destruct (day_average_outcome
      (Instructor.avg_score_by_date
         (Instructor.fill_buckets today all_subs)) d)
      as [(v & -> & _)|[-> _]]; [now left|now right].
  - exists (date (created_at s)). split; [exact Hwin|].
    destruct (day_average_outcome
      (Instructor.avg_score_by_date
         (Instructor.fill_buckets today all_subs)) (date (created_at s)))
      as [(v & _ & Hall)|[Hr _]]; [|exact Hr].
    exfalso. unfold Instructor.fill_buckets in Hall.
    rewrite avg_score_by_date_fold in Hall by assumption.
    cbn [Instructor.empty_buckets Instructor.avg_score_by_date] in Hall.
    rewrite lookup_empty in Hall. cbn [default app] in Hall.
    rewrite forallb_forall in Hall.
    assert (Hnone : Spec.stored_score s = None).
    { unfold Spec.stored_score. now rewrite Hg. }
    specialize (Hall None). discriminate Hall.
    rewrite <- Hnone. apply in_map.
    unfold Spec.graded_on, Spec.on_day. rewrite !filter_In.
    split; [split; [exact Hin|apply Z.eqb_refl]|].
    unfold graded. now rewrite Hg.
Qed.

Lemma sparkline_counts (today : Z) (subs : list Submission)
  (sd : Instructor.sparkline_data) :
  Instructor.sparkline today subs = Py.Ok sd ->
  Instructor.submissions sd
  = map (fun d => Z.of_nat (length (Spec.on_day d subs)))
      (Instructor.last_7_days today)
  /\ Instructor.pending sd
     = map (fun d => Z.of_nat (length (Spec.pending_on d subs)))
         (Instructor.last_7_days today)
  /\ Instructor.active_students sd
     = map (fun d => Z.of_nat (length (Spec.students_on d subs)))
         (Instructor.last_7_days today).
Proof.
  unfold Instructor.sparkline.
  remember (Instructor.last_7_days today) as days eqn:Hdays.
  destruct (Instructor.comprehension _ _) as [avgs|e]; [|discriminate].
  cbn [Py.bind]. intros [= <-].
  cbn [Instructor.submissions Instructor.pending Instructor.active_students].
  unfold Instructor.fill_buckets.
  repeat split; apply map_ext_in; intros d Hd; apply list_elem_of_In in Hd;
    rewrite Hdays in Hd.
  - rewrite submissions_by_date_fold by assumption.
    cbn [Instructor.empty_buckets Instructor.submissions_by_date].
    now rewrite lookup_empty.
  - rewrite pending_by_date_fold by assumption.
    cbn [Instructor.empty_buckets Instructor.pending_by_date].
    now rewrite lookup_empty.
  - rewrite active_students_by_date_fold by assumption.
    cbn [Instructor.empty_buckets Instructor.active_students_by_date].
    rewrite lookup_empty. cbn [default]. rewrite union_empty_l_L.
    f_equal. unfold Spec.students_on. apply size_of_days.
    intros x. apply elem_of_list_to_set.
Qed.

Lemma total_on_days (today : Z) (subs : list Submission) :
  Props.total
    (map (fun d => Z.of_nat (length (Spec.on_day d subs)))
       (Instructor.last_7_days today))
  = Z.of_nat (length (List.filter (Props.in_window today) subs)).
Proof.
  unfold Props.total, Instructor.last_7_days. cbn [map fold_right].
  induction subs as [|s subs IH]; [reflexivity|].
  unfold Spec.on_day in *. cbn [List.filter]. unfold Props.in_window at 1.
  repeat match goal with
         | |- context [Z.eqb ?a ?b] => destruct (Z.eqb_spec a b)
         end;
    destruct (Z.leb_spec (today - 6) (date (created_at s)));
    destruct (Z.leb_spec (date (created_at s)) today);
    cbn [andb length]; lia.
Qed.

(** X11. In a sparkline that is returned, every day has at most as many
    pending submissions and as many active students as submissions, a day
    has no active student exactly when it has no submission, and the
    submission counts add up to the number of submissions dated within the
    seven-day window. *)
Theorem sparkline_counts_consistent (today : Z)
  (all_subs : list Submission) (sd : Instructor.sparkline_data)
  (Hsd : Instructor.sparkline today all_subs = Py.Ok sd) :
  (forall (i : nat) (n : Z),
     Instructor.submissions sd !! i = Some n ->
     exists p a : Z,
       Instructor.pending sd !! i = Some p
       /\ Instructor.active_students sd !! i = Some a
       /\ 0 <= p <= n /\ 0 <= a <= n /\ (a = 0 <-> n = 0))
  /\ Props.total (Instructor.submissions sd)
     = Z.of_nat (length (List.filter (Props.in_window today) all_subs)).
Proof.
  destruct (sparkline_counts today all_subs sd Hsd) as (Hs & Hp & Ha).
  split.
  - intros i n Hn. rewrite Hs, lookup_map in Hn. rewrite Hp, Ha, !lookup_map.
    destruct (Instructor.last_7_days today !! i) as [d|]; [|discriminate].
    cbn in Hn. injection Hn as <-. cbn [fmap option_fmap option_map].
    eexists _, _. split; [reflexivity|]. split; [reflexivity|].
    assert (Hpend : (length (Spec.pending_on d all_subs)
                     <= length (Spec.on_day d all_subs))%nat)
      by apply filter_length_le.
    assert (Hact : (length (Spec.students_on d all_subs)
                    <= length (Spec.on_day d all_subs))%nat).
    { unfold Spec.students_on.
      rewrite <- (length_map student_id (Spec.on_day d all_subs)).
      apply remove_dups_length_le. }
    split; [lia|]. split; [lia|]. split.
    + intros H0. destruct (Spec.on_day d all_subs) as [|s l] eqn:E;
        [reflexivity|]. exfalso.
      assert (Hin : student_id s ∈ Spec.students_on d all_subs).
      { unfold Spec.students_on. apply elem_of_remove_dups. rewrite E.
        cbn [map]. apply list_elem_of_here. }
      destruct (Spec.students_on d all_subs);
        [now apply elem_of_nil in Hin | cbn in H0; lia].
    + intros H0. lia.
  - rewrite Hs. apply total_on_days.
Qed.

Lemma sparkline_counts_consistent_witness :
  let rows := [Examples.scored "WRITING" 10 80;
               Examples.ungraded "SPEAKING" 10;
               Examples.scored "WRITING" 2 71] in
  let sd := {| Instructor.submissions := [0; 0; 0; 0; 0; 0; 2];
               Instructor.pending := [0; 0; 0; 0; 0; 0; 1];
               Instructor.class_avg := [0; 0; 0; 0; 0; 0; 80]%Q;
               Instructor.active_students := [0; 0; 0; 0; 0; 0; 1] |} in
  Instructor.sparkline 10 rows = Py.Ok sd
  /\ Props.total (Instructor.submissions sd)
     = Z.of_nat (length (List.filter (Props.in_window 10) rows)).
Proof.
  intros rows sd.
  assert (Hsd : Instructor.sparkline 10 rows = Py.Ok sd)
    by (vm_compute; reflexivity).
  split; [exact Hsd|].
  exact (proj2 (sparkline_counts_consistent 10 rows sd Hsd)).
Defined.

(** ** The assignments page *)

Lemma datetime_ltb_spec (a b : datetime) :
  Views.datetime_ltb a b = true
  <-> day_of a < day_of b \/ (day_of a = day_of b /\ time_of a < time_of b).
Proof.
  unfold Views.datetime_ltb.
  rewrite orb_true_iff, andb_true_iff, !Z.ltb_lt, Z.eqb_eq. reflexivity.
Qed.



(** ** The speaking page *)

Lemma filter_filter_and {A : Type} (f g : A -> bool) (l : list A) :
  List.filter g (List.filter f l) = List.filter (fun x => f x && g x) l.
Proof.
  induction l as [|x l IH]; [reflexivity|].
  cbn [List.filter]. destruct (f x); cbn [List.filter andb];
    [destruct (g x)|]; now rewrite IH.
Qed.

Lemma latest_from_spec (best : Submission) (l : list Submission) :
  Views.latest_from best l ∈ best :: l
  /\ forall s, s ∈ best :: l ->
       Views.datetime_ltb (created_at (Views.latest_from best l))
         (created_at s) = false.
Proof.
  revert best. induction l as [|x l IH]; intros best; cbn [Views.latest_from].
  - split; [apply list_elem_of_here|].
    intros s Hs. apply list_elem_of_singleton in Hs as ->.
    apply not_true_iff_false. rewrite datetime_ltb_spec. lia.
  - destruct (Views.datetime_ltb (created_at best) (created_at x)) eqn:Hbx.
    + destruct (IH x) as [Hin Hmax]. split.
      * now apply list_elem_of_further.
      * intros s Hs. apply elem_of_cons in Hs as [->|Hs]; [|now apply Hmax].
        pose proof (Hmax x (list_elem_of_here _ _)) as Hx.
        apply not_true_iff_false in Hx. apply not_true_iff_false.
        rewrite datetime_ltb_spec in *. lia.
    + destruct (IH best) as [Hin Hmax]. split.
      * apply elem_of_cons in Hin as [->|Hin]; [apply list_elem_of_here|].
        now apply list_elem_of_further, list_elem_of_further.
      * intros s Hs. apply elem_of_cons in Hs as [->|Hs].
        -- apply Hmax, list_elem_of_here.
        -- apply elem_of_cons in Hs as [->|Hs].
           ++ pose proof (Hmax best (list_elem_of_here _ _)) as Hb.
              apply not_true_iff_false in Hb, Hbx. apply not_true_iff_false.
              rewrite datetime_ltb_spec in *. lia.
           ++ now apply Hmax, list_elem_of_further.
Qed.

(** X13. The speaking page, computed from the learner's rows of type
    SPEAKING taken in the order of the dashboard's rows, is always
    returned; it shows the same average as the dashboard, counts the
    graded speaking submissions only, and its last practice is absent
    exactly when there is none and is otherwise the label of a graded
    speaking submission that none of the others is later than. *)
Theorem speaking_page_matches_dashboard (strftime_b_d : datetime -> string)
  (submissions : list Submission) :
  let rows :=
    List.filter (fun s => String.eqb (submission_type s) "SPEAKING")
      submissions in
  exists page : Views.speaking_page,
    Views.speaking strftime_b_d rows = Py.Ok page
    /\ speaking_score (speaking_subs submissions)
       = Py.Ok (Views.page_avg_score page)
    /\ Views.total_recordings page
       = Z.of_nat (length (speaking_subs submissions))
    /\ (Views.last_practice page = None <-> speaking_subs submissions = [])
    /\ forall label, Views.last_practice page = Some label ->
         exists s, s ∈ speaking_subs submissions
           /\ label = strftime_b_d (created_at s)
           /\ forall s', s' ∈ speaking_subs submissions ->
                Views.datetime_ltb (created_at s) (created_at s') = false.
Proof.
  intros rows. unfold Views.speaking.
  assert (Hrows : List.filter graded rows = speaking_subs submissions)
    by apply filter_filter_and.
  rewrite Hrows, speaking_score_spec. cbn [Py.bind].
  eexists. split; [reflexivity|].
  cbn [Views.page_avg_score Views.total_recordings Views.last_practice].
  split; [reflexivity|]. split; [reflexivity|].
  destruct (speaking_subs submissions) as [|first rest].
  - split; [tauto|]. intros label Hl. discriminate Hl.
  - split; [split; discriminate|].
    intros label [= <-].
    destruct (latest_from_spec first rest) as [Hin Hmax]. eauto.
Qed.

(** ** The quiz service *)

Section QuizFacts.

Variable upper : string -> string.
Variable questions : gmap Z QuizService.Question.

Lemma score_step_count (user_answers : gmap Z string) (question_ids : list Z)
  (correct : Z) :
  fold_left (QuizService.score_step upper questions user_answers)
    question_ids correct
  = correct
    + Z.of_nat
        (length
           (List.filter
              (fun q_id =>
                 match user_answers !! q_id with
                 | Some answer =>
                     QuizService.check_answer upper questions q_id answer
                 | None => false
                 end)
              question_ids)).
Proof.
  revert correct. induction question_ids as [|q l IH]; intros correct.
  - cbn. lia.
  - cbn [fold_left List.filter]. rewrite IH.
    unfold QuizService.score_step, QuizService.check_answer.
    destruct (user_answers !! q) as [a|]; [|lia].
    destruct (questions !! q) as [question|]; [|lia].
    destruct (String.eqb _ _); cbn [length]; lia.
Qed.

Lemma percentage_score_spec (correct total : Z) :
  0 <= correct <= total ->
  exists score : Q,
    QuizService.percentage_score correct total = Py.Ok score
    /\ (0 <= score <= 100)%Q
    /\ (total = 0 -> score = 0%Q)
    /\ (0 < total -> correct = 0 -> score = 0%Q)
    /\ (0 < total -> correct = total -> score = 100%Q).
Proof.
  intros Hc. unfold QuizService.percentage_score.
  destruct (Z.ltb_spec 0 total) as [Ht|Ht].
  - unfold Py.truediv.
    assert (Qeq_bool (inject_Z total) 0 = false) as ->.
    { unfold Qeq_bool, inject_Z. cbn [Qnum Qden]. apply Z.eqb_neq. lia. }
    cbn [Py.bind]. eexists. split; [reflexivity|].
    set (x := (inject_Z correct / inject_Z total * 100)%Q).
    assert (Htq : (0 < inject_Z total)%Q).
    { change 0%Q with (inject_Z 0). rewrite <- Zlt_Qlt. lia. }
    assert (Hcq : (0 <= inject_Z correct <= inject_Z total)%Q).
    { change 0%Q with (inject_Z 0). rewrite <- !Zle_Qle. lia. }
    assert (Hdiv : (0 <= inject_Z correct / inject_Z total <= 1)%Q).
    { split.
      - apply Qle_shift_div_l; [exact Htq|]. lra.
      - apply Qle_shift_div_r; [exact Htq|]. lra. }
    assert (Hx : (0 <= x <= 100)%Q) by (unfold x; lra).
    split; [now apply round1_in_range|]. split; [lia|]. split.
    + intros _ Hz. unfold Py.round1.
      assert (Py.round_half_even (x * 10) = 0) as ->; [|reflexivity].
      assert (Hx0 : x == 0).
      { unfold x. subst correct. unfold Qdiv. change (inject_Z 0) with 0%Q.
        lra. }
      apply Z.le_antisymm.
      * apply round_half_even_le. change (inject_Z 0) with 0%Q. lra.
      * apply round_half_even_ge. change (inject_Z 0) with 0%Q. lra.
    + intros _ Heq. unfold Py.round1.
      assert (Py.round_half_even (x * 10) = 1000) as ->; [|reflexivity].
      assert (Hx1 : x == 100).
      { unfold x. subst correct. field. intros H0. rewrite H0 in Htq.
        now apply Qlt_irrefl in Htq. }
      apply Z.le_antisymm.
      * apply round_half_even_le. change (inject_Z 1000) with 1000%Q. lra.
      * apply round_half_even_ge. change (inject_Z 1000) with 1000%Q. lra.
  - exists 0%Q. split; [reflexivity|]. split; [lra|]. split; [auto|].
    split; intros; lia.
Qed.

(** X14. The final score of a quiz is always returned, as the triple of
    the number of right answers, the number of questions and the
    percentage. A question counts as right when it was answered and
    [check_answer] accepts the answer; unanswered and unknown questions
    count as wrong, and a question listed twice counts twice. The
    percentage lies in [0, 100]; it is 0 for an empty quiz and when nothing
    is right, and 100.0 when everything is. *)
Theorem final_score_counts (question_ids : list Z)
  (user_answers : gmap Z string) :
  exists (correct : Z) (score : Q),
    QuizService.calculate_final_score upper questions question_ids
      user_answers
    = Py.Ok (correct, Z.of_nat (length question_ids), score)
    /\ correct
       = Z.of_nat
           (length
              (List.filter
                 (fun q_id =>
                    match user_answers !! q_id with
                    | Some answer =>
                        QuizService.check_answer upper questions q_id answer
                    | None => false
                    end)
                 question_ids))
    /\ 0 <= correct <= Z.of_nat (length question_ids)
    /\ (0 <= score <= 100)%Q
    /\ (question_ids = [] -> score = 0%Q)
    /\ (correct = 0 -> score = 0%Q)
    /\ (question_ids <> [] -> correct = Z.of_nat (length question_ids) ->
        score = 100%Q).
Proof.
  unfold QuizService.calculate_final_score.
  rewrite score_step_count, Z.add_0_l.
  set (correct := Z.of_nat (length (List.filter _ question_ids))).
  assert (Hc : 0 <= correct <= Z.of_nat (length question_ids)).
  { unfold correct. split; [lia|]. apply Nat2Z.inj_le, filter_length_le. }
  destruct (percentage_score_spec correct (Z.of_nat (length question_ids)) Hc)
    as (score & -> & Hrange & Hempty & Hnone & Hall).
  cbn [Py.bind]. exists correct, score.
  split; [reflexivity|]. split; [reflexivity|]. split; [exact Hc|].
  split; [exact Hrange|]. split; [|split].
  - intros ->. now apply Hempty.
  - intros H0. destruct question_ids as [|q l]; [now apply Hempty|].
    apply Hnone; [cbn; lia|exact H0].
  - intros Hne Heq. apply Hall; [|exact Heq].
    destruct question_ids; [congruence|cbn; lia].
Qed.

(** The case of the letters of an answer does not matter, and a question
    that is not in the table is never answered right. *)
Lemma check_answer_cases (question_id : Z) (a a' : string) :
  (upper a = upper a' ->
   QuizService.check_answer upper questions question_id a
   = QuizService.check_answer upper questions question_id a')
  /\ (questions !! question_id = None ->
      QuizService.check_answer upper questions question_id a = false).
Proof.
  unfold QuizService.check_answer. split.
  - intros ->. reflexivity.
  - intros ->. reflexivity.
Qed.

Variable str : Z -> string.

(** X15. The later revision of the final score, which looks the answers
    up under [str(q_id)], returns what the earlier one returns on the same
    answers keyed by the question id. *)
Theorem final_score_str_agrees (question_ids : list Z)
  (user_answers : gmap Z string) (answers_by_str : gmap string string)
  (Hkeys : forall q_id, q_id ∈ question_ids ->
             answers_by_str !! str q_id = user_answers !! q_id) :
  QuizService.calculate_final_score_str upper questions str question_ids
    answers_by_str
  = QuizService.calculate_final_score upper questions question_ids
      user_answers.
Proof.
  unfold QuizService.calculate_final_score_str,
    QuizService.calculate_final_score.
  assert (Hfold : forall correct,
    fold_left (QuizService.score_step_str upper questions str answers_by_str)
      question_ids correct
    = fold_left (QuizService.score_step upper questions user_answers)
        question_ids correct).
  { induction question_ids as [|q l IH]; intros correct; [reflexivity|].
    cbn [fold_left]. rewrite IH.
    - f_equal. unfold QuizService.score_step_str, QuizService.score_step.
      now rewrite Hkeys by apply list_elem_of_here.
    - intros q' Hq'. now apply Hkeys, list_elem_of_further. }
  now rewrite Hfold.
Qed.

End QuizFacts.

(** ** When the overall averages are returned *)

Lemma scores_of_graded_outcome (subs : list Submission) :
  match Spec.scores_of (List.filter graded subs) with
  | Some _ => Spec.every_grade_scored subs = true
  | None => Spec.every_grade_scored subs = false
  end.
Proof.
  induction subs as [|s subs IH]; [reflexivity|].
  cbn [List.filter Spec.every_grade_scored forallb]. unfold graded at 1.
  destruct (grade s) as [[[v|] p f]|] eqn:Hg;
    cbn [Py.is_not_None score andb Spec.scores_of].
  - rewrite Hg. destruct (Spec.scores_of (List.filter graded subs)); exact IH.
  - rewrite Hg. reflexivity.
  - exact IH.
Qed.


(** X10. The instructor dashboard view is returned exactly when every
    graded submission of the class, dated within the seven-day window or
    not, holds a score; it then hands the class average, the two counts
    and the sparkline to the template. Otherwise the view raises a
    [TypeError], at the class average already, which is computed before
    the sparkline. *)
Theorem instructor_dashboard_outcome (today : Z)
  (all_subs : list Submission) :
  (Spec.every_grade_scored all_subs = true ->
   exists page : Views.instructor_page,
     Views.instructor_dashboard today all_subs = Py.Ok page
     /\ Instructor.class_average all_subs
        = Py.Ok (Views.page_class_avg page)
     /\ Views.page_active_count page = Instructor.active_count all_subs
     /\ Views.page_pending_count page = Instructor.pending_count all_subs
     /\ Instructor.sparkline today all_subs
        = Py.Ok (Views.page_sparkline_data page))
  /\ (Spec.every_grade_scored all_subs = false ->
      Instructor.class_average all_subs = Py.Raise Py.TypeError
      /\ Views.instructor_dashboard today all_subs = Py.Raise Py.TypeError).
Proof.
  pose proof (scores_of_graded_outcome all_subs) as Hout.
  assert (Havg : Instructor.class_average all_subs
                 = match Spec.scores_of (List.filter graded all_subs) with
                   | Some vs => Py.Ok (Spec.average vs)
                   | None => Py.Raise Py.TypeError
                   end).
  { unfold Instructor.class_average, Instructor.graded_subs.
    apply average_of_scores_spec. intros s. apply filter_graded_graded. }
  unfold Views.instructor_dashboard. rewrite Havg.
  destruct (Spec.scores_of (List.filter graded all_subs)) as [vs|].
  - split; [|congruence]. intros Hscored.
    destruct (sparkline_returns_scored today all_subs Hscored) as [sd Hsd].
    rewrite Hsd. cbn [Py.bind]. eexists. split; [reflexivity|].
    cbn [Views.page_class_avg Views.page_active_count
         Views.page_pending_count Views.page_sparkline_data].
    auto.
  - split; [congruence|]. intros _. split; reflexivity.
Qed.

(** ** More on the recommendation *)

(** X17. The fallback "Start Your First Activity" is recommended exactly
    to a learner who has a graded speaking and a graded writing
    submission, both averages at 70 or above, and at least one quiz; a
    learner without a graded speaking submission is always sent to
    speaking. *)
Theorem fallback_recommendation (speaking_subs writing_subs : list Submission)
  (speaking_score writing_score : Q) (completed_quizzes : Z) :
  (recommended speaking_subs writing_subs speaking_score writing_score
     completed_quizzes
   = ("Start Your First Activity"%string, "/assignments"%string)
   <-> speaking_subs <> [] /\ writing_subs <> []
       /\ (70 <= speaking_score)%Q /\ (70 <= writing_score)%Q
       /\ completed_quizzes <> 0)
  /\ (speaking_subs = [] ->
      recommended speaking_subs writing_subs speaking_score writing_score
        completed_quizzes
      = ("Improve Your Speaking"%string, "/speaking"%string)).
Proof.
  unfold recommended. split.
  - destruct speaking_subs as [|s1 l1]; cbn [is_empty].
    { split; [discriminate|]. intros [H _]. congruence. }
    destruct writing_subs as [|s2 l2]; cbn [is_empty].
    { split; [discriminate|]. intros (_ & H & _). congruence. }
    destruct (ltb_spec speaking_score 70) as [Hs|Hs].
    { split; [discriminate|]. intros (_ & _ & H & _). lra. }
    destruct (ltb_spec writing_score 70) as [Hw|Hw].
    { split; [discriminate|]. intros (_ & _ & _ & H & _). lra. }
    destruct (Z.eqb_spec completed_quizzes 0) as [Hq|Hq].
    { split; [discriminate|]. intros (_ & _ & _ & _ & H). congruence. }
    split; [|reflexivity]. intros _.
    repeat split; try discriminate; try lra; assumption.
  - intros ->. reflexivity.
Qed.

(** ** The further theorems at sample inputs *)

Lemma averages_in_range_witness :
  let rows := [Examples.spoken 1 80 60; Examples.scored "WRITING" 2 90] in
  Props.scores_in_range rows = true
  /\ Props.quiz_scores_in_range [] = true
  /\ forall avg : Q,
       writing_score (writing_subs rows) = Py.Ok avg -> (0 <= avg <= 100)%Q.
Proof.
  intros rows. split; [reflexivity|]. split; [reflexivity|].
  destruct (averages_in_range rows [] eq_refl eq_refl)
    as (_ & _ & Hwr & _).
  exact Hwr.
Defined.

Lemma chart_values_in_range_witness :
  let rows := [Examples.spoken 1 80 60; Examples.scored "WRITING" 2 90] in
  Props.scores_in_range rows = true
  /\ exists chart : chart_data,
       chart_of (fun _ => "-"%string) rows [] = Py.Ok chart
       /\ Forall (fun v => 0 <= v <= 100)%Q (speaking_scores chart).
Proof.
  intros rows. split; [reflexivity|].
  destruct (chart_values_in_range (fun _ => "-"%string) rows [] eq_refl
              eq_refl) as (chart & Hchart & Hsp & _).
  exists chart. split; [exact Hchart|exact Hsp].
Defined.

Lemma final_score_str_agrees_witness :
  let upper := fun s : string => s in
  let questions : gmap Z QuizService.Question :=
    {[ 1 := {| QuizService.correct_answer := "A" |} ]} in
  let str := fun q : Z => if q =? 1 then "1"%string else "0"%string in
  QuizService.calculate_final_score_str upper questions str [1]
    {[ "1"%string := "A"%string ]}
  = QuizService.calculate_final_score upper questions [1]
      {[ 1 := "A"%string ]}.
Proof.
  intros upper questions str.
  apply (final_score_str_agrees upper questions str [1]
           {[ 1 := "A"%string ]} {[ "1"%string := "A"%string ]}).
  intros q Hq. apply list_elem_of_singleton in Hq as ->. reflexivity.
Defined.
